(** * Room lifecycle views of [rooms/views.py]

    A shallow embedding of the Django REST views [Rooms], [RoomDetail] and
    [RoomBookings]: the relational store is an explicit state, Python
    exceptions are the left summand of the result, and
    [transaction.atomic()] restores the store when its body raises. *)

From stdpp Require Import gmap strings list fin_maps.
From Stdlib Require Import ZArith Lia Sorted Ascii.

Open Scope string_scope.
Open Scope Z_scope.

(** ** Data model *)

(** Modelled from the spec: [categories/models.py] is not among the sources.
    [Category.CategoryKindChoices] is the closed enumeration of the two
    kinds; the views name its members [ROOM] and [EXPERIENCES]. *)
Module CategoryKindChoices.
Inductive t := ROOM | EXPERIENCES.
Definition eqb (a b : t) : bool :=
  match a, b with
  | ROOM, ROOM | EXPERIENCES, EXPERIENCES => true
  | _, _ => false
  end.
End CategoryKindChoices.

(** Modelled from the spec: [bookings/models.py] is not among the sources.
    [Booking.BookingKindChoices] has the kinds ROOM and EXPERIENCE. *)
Module BookingKindChoices.
Inductive t := ROOM | EXPERIENCE.
Definition eqb (a b : t) : bool :=
  match a, b with
  | ROOM, ROOM | EXPERIENCE, EXPERIENCE => true
  | _, _ => false
  end.
End BookingKindChoices.

(** Modelled from the spec: a Category has an identity (its key in the
    store) and a kind. *)
Record Category := mkCategory {
  category_name : string;
  category_kind : CategoryKindChoices.t }.

(** Modelled from the spec: [rooms/models.py] is not among the sources.  An
    Amenity has an identity, a name and a description. *)
Record Amenity := mkAmenity {
  amenity_name : string;
  amenity_description : string }.

(** Modelled from the spec: a row of the Room table has an owner, a
    category reference and descriptive attributes, of which a name and a
    price stand here.  The many-to-many [amenities] relation is not a column:
    it lives in the join table of the store. *)
Record Room := mkRoom {
  room_name : string;
  room_price : Z;
  room_owner : Z;
  room_category : option Z }.

(** Modelled from the spec: a Booking has a room reference, a user, a kind
    and two dates.  Dates are day ordinals ([date.toordinal()]). *)
Record Booking := mkBooking {
  booking_room : option Z;
  booking_user : Z;
  booking_kind : BookingKindChoices.t;
  check_in : Z;
  check_out : Z }.

(** The persistent store.  [room_amenities] is the join table of
    [Room.amenities], a list of (room pk, amenity pk) rows; [bookings] is the
    Booking table in row order; [next_room_pk] is the pk the next inserted Room
    receives. *)
Record Store := mkStore {
  rooms : gmap Z Room;
  categories : gmap Z Category;
  amenities : gmap Z Amenity;
  room_amenities : list (Z * Z);
  bookings : list (Z * Booking);
  next_room_pk : Z }.

(** ** Requests and responses *)

(** The value found under the key ["amenities"] of [request.data]: nothing
    ([None]), a number, or a list of identifiers. *)
Inductive AmenitiesValue :=
| AmNone
| AmInt (n : Z)
| AmList (pks : list Z).

(** [request.data]: the descriptive fields the serializer reads, and the two
    keys the views read by hand. *)
Record RequestData := mkData {
  data_name : option string;
  data_price : option Z;
  data_category : option Z;
  data_amenities : AmenitiesValue }.

Inductive Method := GET | POST | PUT | DELETE.

(** [user] is [None] for [AnonymousUser]. *)
Record Request := mkRequest {
  user : option Z;
  data : RequestData;
  query_params : gmap string string }.

(** Modelled from the spec: [serializers.py] is not among the sources.
    [RoomDetailSerializer(room).data] is the hydrated Room: its columns, its
    category and its amenity set. *)
Record RoomData := mkRoomData {
  rd_pk : Z;
  rd_name : string;
  rd_price : Z;
  rd_owner : Z;
  rd_category : option Z;
  rd_amenities : list Z }.

Inductive Body :=
| RoomDetailBody (r : RoomData)
| RoomListBody (rs : list (Z * Room))
| BookingListBody (bs : list (Z * Booking))
| ErrorsBody (errors : list string)
| EmptyBody.

Record Response := mkResponse {
  status : Z;
  body : Body }.

Definition HTTP_200_OK : Z := 200.
Definition HTTP_204_NO_CONTENT : Z := 204.
Definition HTTP_400_BAD_REQUEST : Z := 400.

(** ** Exceptions *)

Inductive Model := RoomModel | CategoryModel | AmenityModel.

Inductive Exn :=
| NotFound
| NotAuthenticated
| PermissionDenied
| ParseError (detail : string)
| DoesNotExist (m : Model)
| TypeError
| ValueError
| NameError.

(** What a view hands back to the framework. *)
Definition Outcome : Type := Exn + Response.

(** [APIException.status_code]; any other exception is a server error. *)
Definition http_status (o : Outcome) : Z :=
  match o with
  | inr r => status r
  | inl NotFound => 404
  | inl NotAuthenticated => 401
  | inl PermissionDenied => 403
  | inl (ParseError _) => 400
  | inl _ => 500
  end.

(** ** Store-passing computations that may raise *)

Definition M (A : Type) : Type := Store -> (Exn + A) * Store.

Definition ret {A} (a : A) : M A := fun st => (inr a, st).

Definition raise {A} (e : Exn) : M A := fun st => (inl e, st).

Definition bind {A B} (m : M A) (k : A -> M B) : M B :=
  fun st =>
    match m st with
    | (inr a, st') => k a st'
    | (inl e, st') => (inl e, st')
    end.

Notation "'let*' x ':=' m 'in' k" := (bind m (fun x => k))
  (at level 10, x name, m at level 100, k at level 200).
Notation "m ';;' k" := (bind m (fun _ => k))
  (at level 100, k at level 200, right associativity).

Definition get_store : M Store := fun st => (inr st, st).

Definition modify (f : Store -> Store) : M unit := fun st => (inr tt, f st).

(** [try: body / except <classes>: handler]. *)
Definition try_except {A} (body : M A) (catches : Exn -> bool) (handler : M A)
  : M A :=
  fun st =>
    match body st with
    | (inr a, st') => (inr a, st')
    | (inl e, st') => if catches e then handler st' else (inl e, st')
    end.

Definition Exception : Exn -> bool := fun _ => true.

Definition is_DoesNotExist (m : Model) (e : Exn) : bool :=
  match e, m with
  | DoesNotExist RoomModel, RoomModel
  | DoesNotExist CategoryModel, CategoryModel
  | DoesNotExist AmenityModel, AmenityModel => true
  | _, _ => false
  end.

(** [with transaction.atomic(): body] -- an exception leaving the block undoes
    every write made inside it. *)
Definition atomic {A} (body : M A) : M A :=
  fun st =>
    match body st with
    | (inr a, st') => (inr a, st')
    | (inl e, _) => (inl e, st)
    end.

(** ** The ORM calls the views make *)

Definition set_rooms (f : gmap Z Room -> gmap Z Room) (st : Store) : Store :=
  mkStore (f (rooms st)) (categories st) (amenities st) (room_amenities st)
          (bookings st) (next_room_pk st).

Definition set_room_amenities (f : list (Z * Z) -> list (Z * Z)) (st : Store)
  : Store :=
  mkStore (rooms st) (categories st) (amenities st) (f (room_amenities st))
          (bookings st) (next_room_pk st).

Definition set_bookings (f : list (Z * Booking) -> list (Z * Booking))
  (st : Store) : Store :=
  mkStore (rooms st) (categories st) (amenities st) (room_amenities st)
          (f (bookings st)) (next_room_pk st).

(** [Model.objects.get(pk=pk)]. *)
Definition objects_get {R} (table : Store -> gmap Z R) (m : Model) (pk : Z)
  : M R :=
  fun st =>
    match table st !! pk with
    | Some row => (inr row, st)
    | None => (inl (DoesNotExist m), st)
    end.

Definition Room_objects_get := objects_get rooms RoomModel.
Definition Category_objects_get := objects_get categories CategoryModel.
Definition Amenity_objects_get := objects_get amenities AmenityModel.

(** [room.amenities.all()], as amenity pks. *)
Definition amenities_all (room_pk : Z) (st : Store) : list Z :=
  (filter (λ row : Z * Z, row.1 = room_pk) (room_amenities st)).*2.

(** [room.amenities.add(amenity)]: a link that is already there is left
    alone. *)
Definition add_link (room_pk amenity_pk : Z) (links : list (Z * Z))
  : list (Z * Z) :=
  if decide ((room_pk, amenity_pk) ∈ links) then links
  else links ++ [(room_pk, amenity_pk)].

Definition amenities_add (room_pk amenity_pk : Z) : M unit :=
  modify (set_room_amenities (add_link room_pk amenity_pk)).

(** [room.amenities.clear()]. *)
Definition clear_links (room_pk : Z) (links : list (Z * Z)) : list (Z * Z) :=
  filter (λ row : Z * Z, row.1 ≠ room_pk) links.

Definition amenities_clear (room_pk : Z) : M unit :=
  modify (set_room_amenities (clear_links room_pk)).

(** [room.delete()]: the row goes, and with it the rows that reference it. *)
Definition Room_delete (pk : Z) : M unit :=
  modify (fun st =>
    set_bookings (filter (λ b : Z * Booking, booking_room b.2 ≠ Some pk))
      (set_room_amenities (clear_links pk)
        (set_rooms (delete pk) st))).

(** Python truth value of [request.data.get("category")]. *)
Definition truthy_pk (v : option Z) : bool :=
  match v with
  | None => false
  | Some n => negb (n =? 0)
  end.

(** Python truth value of [request.data.get("amenities")]. *)
Definition truthy_amenities (v : AmenitiesValue) : bool :=
  match v with
  | AmNone => false
  | AmInt n => negb (n =? 0)
  | AmList [] => false
  | AmList (_ :: _) => true
  end.

(** The sequence a [for] statement walks; [None] and numbers are not
    iterable. *)
Definition iter (v : AmenitiesValue) : M (list Z) :=
  match v with
  | AmList pks => ret pks
  | AmNone | AmInt _ => raise TypeError
  end.

(** ** Permission gate *)

Definition SAFE_METHODS (m : Method) : bool :=
  match m with
  | GET => true
  | POST | PUT | DELETE => false
  end.

Definition is_authenticated (request : Request) : bool :=
  match user request with
  | Some _ => true
  | None => false
  end.

(** Modelled from the spec: the Access Control Gate.  The views only declare
    [permission_classes = [IsAuthenticatedOrReadOnly]]; the class itself and
    the check that [APIView] runs before the handler belong to
    [rest_framework].  Reads are open, a write by an unauthenticated caller is
    rejected with [NotAuthenticated] before the handler runs. *)
Definition IsAuthenticatedOrReadOnly (m : Method) (request : Request) : bool :=
  SAFE_METHODS m || is_authenticated request.

Definition as_view {A} (m : Method) (handler : Request -> A -> M Response)
  (request : Request) (arg : A) : M Response :=
  if IsAuthenticatedOrReadOnly m request then handler request arg
  else raise NotAuthenticated.

#[global] Instance BookingKind_eq_dec : EqDecision BookingKindChoices.t.
Proof. solve_decision. Defined.

(** The condition of
    [Booking.objects.filter(room=room, kind=ROOM, check_in__gt=now)]. *)
Definition upcoming (room_pk now : Z) (b : Z * Booking) : Prop :=
  booking_room b.2 = Some room_pk
  ∧ booking_kind b.2 = BookingKindChoices.ROOM
  ∧ now < check_in b.2.

#[global] Instance upcoming_dec room_pk now b : Decision (upcoming room_pk now b).
Proof. unfold upcoming. apply _. Defined.

(** The join table after [room.amenities.add] has run once for each of [pks],
    in order. *)
Definition add_links (room_pk : Z) (pks : list Z) (links : list (Z * Z))
  : list (Z * Z) :=
  foldl (λ acc amenity_pk, add_link room_pk amenity_pk acc) links pks.

(** ** The views *)

Section Views.

(** Modelled from the spec: [serializers.py] is not among the sources, so
    what [RoomDetailSerializer(data=...).is_valid()] rejects is a parameter.
    [room_errors d] is [serializer.errors] for a full validation of [d],
    [room_errors_partial d] the same under [partial=True]; the data is
    valid when the error list is empty. *)
Variable room_errors : RequestData -> list string.
Variable room_errors_partial : RequestData -> list string.

Definition is_valid (errors : list string) : bool :=
  match errors with
  | [] => true
  | _ :: _ => false
  end.

(** Modelled from the spec: [RoomDetailSerializer(room).data], the hydrated
    Room -- the columns of the instance and the amenity links read from the
    store at that moment. *)
Definition RoomDetailSerializer_data (pk : Z) (room : Room) : M RoomData :=
  let* st := get_store in
  ret (mkRoomData pk (room_name room) (room_price room) (room_owner room)
                  (room_category room) (amenities_all pk st)).

(** Modelled from the spec: [serializer.save(owner=..., category=...)]
    without an instance persists a new Room with that owner and category.  An
    anonymous user cannot be stored as owner. *)
Definition serializer_create (d : RequestData) (owner : option Z)
  (category_pk : Z) : M (Z * Room) :=
  match owner with
  | None => raise ValueError
  | Some u =>
      let* st := get_store in
      let pk := next_room_pk st in
      let room := mkRoom (default "" (data_name d))
                         (default 0 (data_price d)) u (Some category_pk) in
      modify (fun st =>
        mkStore (<[pk := room]> (rooms st)) (categories st) (amenities st)
                (room_amenities st) (bookings st) (pk + 1)) ;;
      ret (pk, room)
  end.

(** Modelled from the spec: a partial update changes only the fields that
    are present.  These are the attributes [serializer.update] sets on the
    instance: the validated fields, then the keyword arguments of [save]. *)
Definition set_attrs (d : RequestData) (category : option Z) (room : Room)
  : Room :=
  mkRoom (default (room_name room) (data_name d))
         (default (room_price room) (data_price d))
         (room_owner room)
         (match category with
          | Some c => Some c
          | None => room_category room
          end).

(** [serializer.save(...)] with an instance: mutate the instance, write
    its row, hand the same instance back. *)
Definition serializer_update (pk : Z) (instance : Room) (d : RequestData)
  (category : option Z) : M Room :=
  let instance' := set_attrs d category instance in
  modify (set_rooms (insert pk instance')) ;;
  ret instance'.

(** *** [class Rooms] *)

Definition Rooms_get (request : Request) (_ : unit) : M Response :=
  let* st := get_store in
  let all_rooms := map_to_list (rooms st) in
  ret (mkResponse HTTP_200_OK (RoomListBody all_rooms)).

(** The loop of [Rooms.post]:
    [for amenity_pk in amenities:
         amenity = Amenity.objects.get(pk=amenity_pk)
         room.amenities.add(amenity)] *)
Fixpoint add_each (room_pk : Z) (pks : list Z) : M unit :=
  match pks with
  | [] => ret tt
  | amenity_pk :: rest =>
      let* _amenity := Amenity_objects_get amenity_pk in
      amenities_add room_pk amenity_pk ;;
      add_each room_pk rest
  end.

(** The body of the [with transaction.atomic()] block of [Rooms.post]. *)
Definition post_transaction (request : Request) (category_pk : Z)
  : M Response :=
  let* room := serializer_create (data request) (user request)
                                 category_pk in
  let amenities := data_amenities (data request) in
  let* pks := iter amenities in
  add_each room.1 pks ;;
  let* serializer_data := RoomDetailSerializer_data room.1 room.2 in
  ret (mkResponse HTTP_200_OK (RoomDetailBody serializer_data)).

(** The [try] / [except Category.DoesNotExist] block of [Rooms.post]. *)
Definition post_category (category_pk : Z) : M Category :=
  try_except
    (let* category := Category_objects_get category_pk in
     if CategoryKindChoices.eqb (category_kind category)
          CategoryKindChoices.EXPERIENCES
     then raise (ParseError "The category kind should be 'rooms'.")
     else ret category)
    (is_DoesNotExist CategoryModel)
    (raise (ParseError "Category not found")).

Definition Rooms_post (request : Request) (_ : unit) : M Response :=
  let errors := room_errors (data request) in
  if is_valid errors then
    let category_pk := data_category (data request) in
    if negb (truthy_pk category_pk) then
      raise (ParseError "Category is required.")
    else
      let category_pk := default 0 category_pk in
      let* category := post_category category_pk in
      try_except (atomic (post_transaction request category_pk))
                 Exception
                 (raise (ParseError "Amenity not found"))
  else
    ret (mkResponse HTTP_400_BAD_REQUEST (ErrorsBody errors)).

(** *** [class RoomDetail] *)

Definition RoomDetail_get_object (pk : Z) : M Room :=
  try_except (Room_objects_get pk) (is_DoesNotExist RoomModel)
             (raise NotFound).

Definition RoomDetail_get (request : Request) (pk : Z) : M Response :=
  let* room := RoomDetail_get_object pk in
  let* serializer_data := RoomDetailSerializer_data pk room in
  ret (mkResponse HTTP_200_OK (RoomDetailBody serializer_data)).

(** [room.owner != request.user]. *)
Definition owner_differs (room : Room) (request : Request) : bool :=
  match user request with
  | Some u => negb (room_owner room =? u)
  | None => true
  end.

(** The loop of [RoomDetail.put]:
    [for amenity_pk in amenities:
         amenity = Amenity.objects.get(pk=amenity_pk)]
    The result is the binding of [amenity] once the loop is over. *)
Fixpoint get_each (pks : list Z) (amenity : option Z) : M (option Z) :=
  match pks with
  | [] => ret amenity
  | amenity_pk :: rest =>
      let* _amenity := Amenity_objects_get amenity_pk in
      get_each rest (Some amenity_pk)
  end.

(** The body of the [with transaction.atomic()] block of [RoomDetail.put],
    in two parts.  First the saves: [new_room = serializer.save()], then
    the category branch binding [updated_room].  [serializer.save()]
    returns [serializer.instance], which is the object [room]: [new_room]
    and [updated_room] are two names of that one object, and the result
    here is its latest state. *)
Definition put_save (pk : Z) (room : Room) (request : Request) : M Room :=
  let category_pk := data_category (data request) in
  let* new_room := serializer_update pk room (data request) None in
  if truthy_pk category_pk then
    let category_pk := default 0 category_pk in
    let* category := Category_objects_get category_pk in
    if negb (CategoryKindChoices.eqb (category_kind category)
               CategoryKindChoices.ROOM)
    then raise (ParseError "The category kind should be rooms")
    else serializer_update pk new_room (data request) (Some category_pk)
  else serializer_update pk new_room (data request) None.

(** Then the amenities.  [Some response] is the [return] inside
    [if amenities:], [None] is falling off the end of the block.  The
    [add] stands after the loop, so it runs once, on the last binding of
    [amenity]. *)
Definition put_amenities (pk : Z) (new_room : Room) (request : Request)
  : M (option Response) :=
  let amenities := data_amenities (data request) in
  if truthy_amenities amenities then
    amenities_clear pk ;;
    let* pks := iter amenities in
    let* amenity := get_each pks None in
    match amenity with
    | None => raise NameError
    | Some amenity_pk =>
        amenities_add pk amenity_pk ;;
        let* serializer_data := RoomDetailSerializer_data pk new_room in
        ret (Some (mkResponse HTTP_200_OK (RoomDetailBody serializer_data)))
    end
  else ret None.

Definition put_transaction (pk : Z) (room : Room) (request : Request)
  : M (option Response) :=
  let* updated_room := put_save pk room request in
  let new_room := updated_room in
  put_amenities pk new_room request.

Definition RoomDetail_put (request : Request) (pk : Z) : M Response :=
  let* room := RoomDetail_get_object pk in
  if owner_differs room request then raise PermissionDenied
  else
    let errors := room_errors_partial (data request) in
    if is_valid errors then
      let* returned :=
        try_except (atomic (put_transaction pk room request))
                   Exception
                   (raise (ParseError "Amenity not Found")) in
      match returned with
      | Some response => ret response
      | None => ret (mkResponse HTTP_200_OK (ErrorsBody errors))
      end
    else raise NotAuthenticated.

Definition RoomDetail_delete (request : Request) (pk : Z) : M Response :=
  let* room := RoomDetail_get_object pk in
  if owner_differs room request then raise PermissionDenied
  else
    Room_delete pk ;;
    ret (mkResponse HTTP_204_NO_CONTENT EmptyBody).

(** *** [class RoomBookings] *)

Definition RoomBookings_get_object (pk : Z) : M Room :=
  try_except (Room_objects_get pk) Exception (raise NotFound).

(** [bookings = Booking.objects.filter(...)], listed as the table holds
    them.  [now] is [timezone.localtime(timezone.now()).date()], read from
    the clock by the caller. *)
Definition RoomBookings_get (now : Z) (request : Request) (pk : Z)
  : M Response :=
  let* room := RoomBookings_get_object pk in
  let* st := get_store in
  let bookings := filter (upcoming pk now) (bookings st) in
  ret (mkResponse HTTP_200_OK (BookingListBody bookings)).

End Views.

(** The store [serializer.save(owner=u, category=c)] of [Rooms.post] leaves
    behind. *)
Definition created (request : Request) (u c : Z) (st : Store) : Store :=
  mkStore (<[next_room_pk st :=
               mkRoom (default "" (data_name (data request)))
                      (default 0 (data_price (data request))) u (Some c)]>
             (rooms st))
          (categories st) (amenities st) (room_amenities st) (bookings st)
          (next_room_pk st + 1).

(** The three refusals shared by [put] and [delete], in the order the code
    meets them: the permission gate, [get_object], the owner test. *)
Inductive refusal (st : Store) (request : Request) (pk : Z) : Exn -> Prop :=
| refuse_anonymous :
    user request = None -> refusal st request pk NotAuthenticated
| refuse_missing u :
    user request = Some u -> rooms st !! pk = None ->
    refusal st request pk NotFound
| refuse_stranger u room :
    user request = Some u -> rooms st !! pk = Some room ->
    room_owner room ≠ u -> refusal st request pk PermissionDenied.

(** The category of an update request is accepted when it is absent (or
    falsy), or names a category of kind ROOM. *)
Definition category_accepted (st : Store) (request : Request) : Prop :=
  truthy_pk (data_category (data request)) = false
  ∨ ∃ c category,
      data_category (data request) = Some c ∧ c ≠ 0
      ∧ categories st !! c = Some category
      ∧ category_kind category = CategoryKindChoices.ROOM.

(** ** What the specification asks of the room list *)

Definition digit_of (c : ascii) : option Z :=
  let n := Z.of_nat (nat_of_ascii c) in
  if decide (48 ≤ n ≤ 57) then Some (n - 48) else None.

Fixpoint digits_value (acc : Z) (s : string) : option Z :=
  match s with
  | EmptyString => Some acc
  | String c rest =>
      match digit_of c with
      | Some d => digits_value (10 * acc + d) rest
      | None => None
      end
  end.

(** The page a request names, in the specification's words: the query
    parameter [page] when present, 1 by default, 1 again when the value is
    not a number (a run of decimal digits). *)
Definition spec_page (request : Request) : Z :=
  match query_params request !! "page" with
  | None => 1
  | Some "" => 1
  | Some raw => default 1 (digits_value 0 raw)
  end.

(** Page [page] of [l], [page_size] entries to a page. *)
Definition spec_page_slice {A} (page_size page : Z) (l : list A) : list A :=
  take (Z.to_nat page_size) (drop (Z.to_nat ((page - 1) * page_size)) l).

(** The instance once both saves of [RoomDetail.put] have run. *)
Definition saved_room (request : Request) (room : Room) : Room :=
  set_attrs (data request)
    (if truthy_pk (data_category (data request))
     then data_category (data request) else None)
    (set_attrs (data request) None room).

(** ** Sample data *)

(** A schema that wants [name] and [price] and a non-negative price; under
    [partial=True] only the fields that are present are checked. *)
Definition sample_errors_partial (d : RequestData) : list string :=
  match data_price d with
  | Some p => if decide (p < 0) then ["price"] else []
  | None => []
  end.

Definition sample_errors (d : RequestData) : list string :=
  match data_name d with
  | Some _ => []
  | None => ["name"]
  end
  ++ match data_price d with
     | Some _ => sample_errors_partial d
     | None => ["price"]
     end.

(** One room (pk 1, owner 7) with amenities A = 1 and B = 2; a third amenity
    C = 3; a ROOM category 1 and an EXPERIENCES category 2; two bookings of
    room 1, the later stay booked first. *)
Definition sample_store : Store :=
  mkStore {[ 1 := mkRoom "loft" 100 7 (Some 1) ]}
          {[ 1 := mkCategory "rooms" CategoryKindChoices.ROOM;
             2 := mkCategory "tours" CategoryKindChoices.EXPERIENCES ]}
          {[ 1 := mkAmenity "A" ""; 2 := mkAmenity "B" "";
             3 := mkAmenity "C" "" ]}
          [(1, 1); (1, 2)]
          [(1, mkBooking (Some 1) 9 BookingKindChoices.ROOM 20 25);
           (2, mkBooking (Some 1) 9 BookingKindChoices.ROOM 10 12)]
          2.

(** The same with a second room, pk 2, owned by user 8. *)
Definition two_rooms : Store :=
  mkStore (<[ 2 := mkRoom "cabin" 80 8 (Some 1) ]> (rooms sample_store))
          (categories sample_store) (amenities sample_store)
          (room_amenities sample_store) (bookings sample_store) 3.

Definition request_of (u : option Z) (d : RequestData) : Request :=
  mkRequest u d ∅.

Definition no_data : RequestData := mkData None None None AmNone.

(** The owner of room 1 asks for the amenities B and C. *)
Definition replace_request : Request :=
  request_of (Some 7) (mkData None None None (AmList [2; 3])).

(** The owner of room 1 renames it and names no amenities. *)
Definition rename_request : Request :=
  request_of (Some 7) (mkData (Some "suite") None None AmNone).

(** The owner of room 1 sends a price the schema rejects. *)
Definition negative_price_request : Request :=
  request_of (Some 7) (mkData None (Some (-5)) None AmNone).

(** User 7 creates a room in the ROOM category with amenity B and an amenity
    9 that does not exist. *)
Definition bad_amenity_request : Request :=
  request_of (Some 7) (mkData (Some "flat") (Some 50) (Some 1) (AmList [2; 9])).

(** The same room with amenities B, C and B again. *)
Definition repeated_amenity_request : Request :=
  request_of (Some 7)
             (mkData (Some "flat") (Some 50) (Some 1) (AmList [2; 3; 2])).

(** The same room with no [amenities] key. *)
Definition no_amenities_request : Request :=
  request_of (Some 7) (mkData (Some "flat") (Some 50) (Some 1) AmNone).

(** The same room in the EXPERIENCES category. *)
Definition experience_request : Request :=
  request_of (Some 7) (mkData (Some "flat") (Some 50) (Some 2) (AmList [2])).

(** An anonymous [GET ...?page=2]. *)
Definition page_two_request : Request :=
  mkRequest None no_data {[ "page" := "2" ]}.

(** ** The remaining views *)

(** Modelled from the spec: [reviews/models.py] and [medias/models.py] are
    not among the sources.  Reviews and photos are nested resources of a
    Room; a Review carries the user and the room the view sets and its
    payload, a Photo the room the view sets and its file. *)
Record Review := mkReview {
  review_user : Z;
  review_room : Z;
  review_payload : string }.

Record Photo := mkPhoto {
  photo_room : Z;
  photo_file : string }.

(** The bodies of the answers below, for which [Body] has no case. *)
Inductive Payload :=
| AmenityPayload (pk : Z) (amenity : Amenity)
| AmenityListPayload (all_amenities : list (Z * Amenity))
| BookingPayload (pk : Z) (booking : Booking)
| ReviewPayload (pk : Z) (review : Review)
| ReviewListPayload (page_reviews : list (Z * Review))
| PhotoPayload (pk : Z) (photo : Photo)
| ErrorsPayload (errors : list string)
| NoPayload.

Record Reply := mkReply {
  reply_status : Z;
  reply_body : Payload }.

Definition set_amenities (f : gmap Z Amenity -> gmap Z Amenity) (st : Store)
  : Store :=
  mkStore (rooms st) (categories st) (f (amenities st)) (room_amenities st)
          (bookings st) (next_room_pk st).

(** [amenity.delete()]: the row goes, and with it the join rows that link it
    to a room. *)
Definition Amenity_delete (pk : Z) : M unit :=
  modify (fun st =>
    set_room_amenities (filter (λ row : Z * Z, row.2 ≠ pk))
      (set_amenities (delete pk) st)).

(** What brings an update of a room down inside its transaction: a category
    that does not exist or is of kind EXPERIENCES, an [amenities] value that
    is a number other than 0, an amenity that does not exist. *)
Inductive bad_reference (st : Store) (request : Request) : Prop :=
| bad_category_missing c :
    data_category (data request) = Some c -> c ≠ 0 ->
    categories st !! c = None -> bad_reference st request
| bad_category_kind c category :
    data_category (data request) = Some c -> c ≠ 0 ->
    categories st !! c = Some category ->
    category_kind category = CategoryKindChoices.EXPERIENCES ->
    bad_reference st request
| bad_amenities_number n :
    data_amenities (data request) = AmInt n -> n ≠ 0 ->
    bad_reference st request
| bad_amenity_missing pks missing :
    data_amenities (data request) = AmList pks ->
    missing ∈ pks -> amenities st !! missing = None ->
    bad_reference st request.

Section MoreViews.

(** The request body as the view's serializer reads it; [request.data] of
    [Request] holds only the keys of the Room views. *)
Variable Body_t : Type.

(** Modelled from the spec: [serializers.py] and [bookings/serializers.py]
    are not among the sources.  [serializer.is_valid()] either fills
    [serializer.errors] (left) or [serializer.validated_data] (right); it may
    read the store.  For an amenity the validated data of a full validation
    is the amenity, under [partial=True] the fields that are present; for a
    room booking it is the two dates. *)
Variable amenity_validate : Store -> Body_t -> list string + Amenity.
Variable amenity_validate_partial :
  Store -> Body_t -> list string + (option string * option string).
Variable booking_validate : Store -> Body_t -> list string + (Z * Z).

(** *** [class Amenities] *)

Definition Amenities_get (request : Request) : M Reply :=
  let* st := get_store in
  let all_amenities := map_to_list (amenities st) in
  ret (mkReply HTTP_200_OK (AmenityListPayload all_amenities)).

(** [new_pk] is the key the database gives the new row. *)
Definition Amenities_post (new_pk : Z) (body : Body_t) (request : Request)
  : M Reply :=
  let* st := get_store in
  match amenity_validate st body with
  | inr amenity =>
      modify (set_amenities (insert new_pk amenity)) ;;
      ret (mkReply HTTP_200_OK (AmenityPayload new_pk amenity))
  | inl errors => ret (mkReply HTTP_400_BAD_REQUEST (ErrorsPayload errors))
  end.

(** *** [class AmenityDetail] *)

Definition AmenityDetail_get_object (pk : Z) : M Amenity :=
  try_except (Amenity_objects_get pk) (is_DoesNotExist AmenityModel)
             (raise NotFound).

Definition AmenityDetail_get (request : Request) (pk : Z) : M Reply :=
  let* amenity := AmenityDetail_get_object pk in
  ret (mkReply HTTP_200_OK (AmenityPayload pk amenity)).

Definition AmenityDetail_put (body : Body_t) (request : Request) (pk : Z)
  : M Reply :=
  let* amenity := AmenityDetail_get_object pk in
  let* st := get_store in
  match amenity_validate_partial st body with
  | inr (name, description) =>
      let updated_amenity :=
        mkAmenity (default (amenity_name amenity) name)
                  (default (amenity_description amenity) description) in
      modify (set_amenities (insert pk updated_amenity)) ;;
      ret (mkReply HTTP_200_OK (AmenityPayload pk updated_amenity))
  | inl errors => ret (mkReply HTTP_400_BAD_REQUEST (ErrorsPayload errors))
  end.

Definition AmenityDetail_delete (request : Request) (pk : Z) : M Reply :=
  let* amenity := AmenityDetail_get_object pk in
  Amenity_delete pk ;;
  ret (mkReply HTTP_204_NO_CONTENT NoPayload).

(** *** [RoomBookings.post] *)

(** [serializer.save(room=room, user=request.user, kind=ROOM)]; the new row
    goes to the end of the table under the key [new_pk].  An invalid body is
    answered with [Response(serializer.errors)], whose status is the default
    200. *)
Definition RoomBookings_post (new_pk : Z) (body : Body_t) (request : Request)
  (pk : Z) : M Reply :=
  let* room := RoomBookings_get_object pk in
  let* st := get_store in
  match booking_validate st body with
  | inr (validated_check_in, validated_check_out) =>
      match user request with
      | None => raise ValueError
      | Some u =>
          let booking := mkBooking (Some pk) u BookingKindChoices.ROOM
                                   validated_check_in validated_check_out in
          modify (set_bookings (λ table, table ++ [(new_pk, booking)])%list) ;;
          ret (mkReply HTTP_200_OK (BookingPayload new_pk booking))
      end
  | inl errors => ret (mkReply HTTP_200_OK (ErrorsPayload errors))
  end.

End MoreViews.

(** The permission gate in front of a handler that answers with a [Reply]. *)
Definition as_view_reply {A} (m : Method) (handler : Request -> A -> M Reply)
  (request : Request) (arg : A) : M Reply :=
  if IsAuthenticatedOrReadOnly m request then handler request arg
  else raise NotAuthenticated.

(** ** Reviews and photos *)

(** The store together with the Review and Photo tables, each a list of rows
    in table order. *)
Record Site := mkSite {
  store : Store;
  reviews : list (Z * Review);
  photos : list (Z * Photo) }.

Definition MS (A : Type) : Type := Site -> (Exn + A) * Site.

Definition ret_site {A} (a : A) : MS A := fun site => (inr a, site).

Definition raise_site {A} (e : Exn) : MS A := fun site => (inl e, site).

Definition bind_site {A B} (m : MS A) (k : A -> MS B) : MS B :=
  fun site =>
    match m site with
    | (inr a, site') => k a site'
    | (inl e, site') => (inl e, site')
    end.

Notation "'let+' x ':=' m 'in' k" := (bind_site m (fun x => k))
  (at level 10, x name, m at level 100, k at level 200).

Definition get_site : MS Site := fun site => (inr site, site).

(** A computation on the store, run on the store of the site. *)
Definition lift {A} (m : M A) : MS A :=
  fun site =>
    let (r, st') := m (store site) in
    (r, mkSite st' (reviews site) (photos site)).

Definition add_review (pk : Z) (review : Review) : MS unit :=
  fun site =>
    (inr tt,
     mkSite (store site) (reviews site ++ [(pk, review)])%list (photos site)).

Definition add_photo (pk : Z) (photo : Photo) : MS unit :=
  fun site =>
    (inr tt,
     mkSite (store site) (reviews site) (photos site ++ [(pk, photo)])%list).

(** [room.reviews.all()]. *)
Definition room_reviews (room_pk : Z) (site : Site) : list (Z * Review) :=
  filter (λ row : Z * Review, review_room row.2 = room_pk) (reviews site).

(** [queryset[start:stop]]: the rows from position [start] up to, not
    including, position [stop]; the ORM refuses a negative bound. *)
Definition queryset_slice {A} (start stop : Z) (rows : list A)
  : Exn + list A :=
  if decide (start < 0 ∨ stop < 0) then inl ValueError
  else inr (take (Z.to_nat (stop - start)) (drop (Z.to_nat start) rows)).


Section SiteViews.

Variable Body_t : Type.

(** [int(...)] on the text of a query parameter; [None] is [ValueError]. *)
Variable python_int : string -> option Z.

(** [settings.PAGE_SIZE]. *)
Variable PAGE_SIZE : Z.

(** Modelled from the spec: [reviews/serializers.py] and
    [medias/serializers.py] are not among the sources.  [is_valid()] either
    fills the errors (left) or the validated data (right): the payload of a
    review, the file of a photo. *)
Variable review_validate : Site -> Body_t -> list string + string.
Variable photo_validate : Site -> Body_t -> list string + string.

(** [try: page = request.query_params.get("page", 1); page = int(page)]
    [except ValueError: page = 1]. *)
Definition requested_page (request : Request) : Z :=
  match query_params request !! "page" with
  | None => 1
  | Some raw =>
      match python_int raw with
      | Some page => page
      | None => 1
      end
  end.

(** *** [class RoomReviews] *)

Definition RoomReviews_get_object (pk : Z) : M Room :=
  try_except (Room_objects_get pk) (is_DoesNotExist RoomModel)
             (raise NotFound).

Definition RoomReviews_get (request : Request) (pk : Z) : MS Reply :=
  let page := requested_page request in
  let page_size := 3 in
  let start := (page - 1) * page_size in
  let end_ := start + page_size in
  let+ room := lift (RoomReviews_get_object pk) in
  let+ site := get_site in
  match queryset_slice start end_ (room_reviews pk site) with
  | inr page_reviews =>
      ret_site (mkReply HTTP_200_OK (ReviewListPayload page_reviews))
  | inl e => raise_site e
  end.

(** [None] is the end of the function reached without a [return]: an invalid
    body has no branch of its own.  The room is looked up as an argument of
    [serializer.save], after validation. *)
Definition RoomReviews_post (new_pk : Z) (body : Body_t) (request : Request)
  (pk : Z) : MS (option Reply) :=
  let+ site := get_site in
  match review_validate site body with
  | inr payload =>
      let+ room := lift (RoomReviews_get_object pk) in
      match user request with
      | None => raise_site ValueError
      | Some u =>
          let review := mkReview u pk payload in
          let+ _saved := add_review new_pk review in
          ret_site (Some (mkReply HTTP_200_OK (ReviewPayload new_pk review)))
      end
  | inl _ => ret_site None
  end.

(** *** [class RoomAmenities] *)



(** *** [class RoomPhotos] *)

Definition RoomPhotos_get_object (pk : Z) : M Room :=
  try_except (Room_objects_get pk) (is_DoesNotExist RoomModel)
             (raise NotFound).

Definition RoomPhotos_post (new_pk : Z) (body : Body_t) (request : Request)
  (pk : Z) : MS Reply :=
  let+ room := lift (RoomPhotos_get_object pk) in
  if owner_differs room request then raise_site PermissionDenied
  else
    let+ site := get_site in
    match photo_validate site body with
    | inr file =>
        let photo := mkPhoto pk file in
        let+ _saved := add_photo new_pk photo in
        ret_site (mkReply HTTP_200_OK (PhotoPayload new_pk photo))
    | inl errors => ret_site (mkReply HTTP_200_OK (ErrorsPayload errors))
    end.

End SiteViews.

(** The permission gate in front of a handler that works on the site. *)
Definition as_view_site {A R} (m : Method) (handler : Request -> A -> MS R)
  (request : Request) (arg : A) : MS R :=
  if IsAuthenticatedOrReadOnly m request then handler request arg
  else raise_site NotAuthenticated.

(** The reviews an answer lists. *)
Definition listed_reviews (outcome : Exn + Reply) : list (Z * Review) :=
  match outcome with
  | inr (mkReply _ (ReviewListPayload page_reviews)) => page_reviews
  | _ => []
  end.

(** ** Sample data for the remaining views *)

(** A booking body is its two dates; the check-out must follow the
    check-in. *)
Definition sample_booking_validate (st : Store) (body : Z * Z)
  : list string + (Z * Z) :=
  if decide (body.1 < body.2) then inr body else inl ["check_out"].

(** An amenity body is a name and a description, either of which may be
    absent; a create wants the name, and no name may be empty. *)
Definition sample_amenity_validate_partial (st : Store)
  (body : option string * option string)
  : list string + (option string * option string) :=
  match body.1 with
  | Some "" => inl ["name"]
  | _ => inr body
  end.

Definition sample_amenity_validate (st : Store)
  (body : option string * option string) : list string + Amenity :=
  match body.1 with
  | None | Some "" => inl ["name"]
  | Some name => inr (mkAmenity name (default "" body.2))
  end.

(** A review or photo body is one text, which may not be empty. *)
Definition sample_text_validate (site : Site) (body : string)
  : list string + string :=
  match body with
  | "" => inl ["payload"]
  | _ => inr body
  end.

(** [int] on runs of decimal digits. *)
Definition decimal_int (raw : string) : option Z :=
  match raw with
  | "" => None
  | _ => digits_value 0 raw
  end.

(** The sample store with four reviews of room 1 by user 9 and, between
    them, one review of a room 2. *)
Definition sample_site : Site :=
  mkSite sample_store
         [(1, mkReview 9 1 "one"); (2, mkReview 9 1 "two");
          (3, mkReview 9 2 "other"); (4, mkReview 9 1 "three");
          (5, mkReview 9 1 "four")]
         [].

Definition page_request (raw : string) : Request :=
  mkRequest None no_data {[ "page" := raw ]}.

(** * Properties *)

(** ** Running the primitives *)

Lemma objects_get_Some {R} (table : Store -> gmap Z R) m pk row st :
  table st !! pk = Some row -> objects_get table m pk st = (inr row, st).
Proof. intros Hrow. unfold objects_get. by rewrite Hrow. Qed.

Lemma objects_get_None {R} (table : Store -> gmap Z R) m pk st :
  table st !! pk = None -> objects_get table m pk st = (inl (DoesNotExist m), st).
Proof. intros Hrow. unfold objects_get. by rewrite Hrow. Qed.

Lemma bind_inr {A B} (m : M A) (k : A -> M B) a st st' :
  m st = (inr a, st') -> bind m k st = k a st'.
Proof. intros Hm. unfold bind. by rewrite Hm. Qed.

Lemma bind_inl {A B} (m : M A) (k : A -> M B) e st st' :
  m st = (inl e, st') -> bind m k st = (inl e, st').
Proof. intros Hm. unfold bind. by rewrite Hm. Qed.

(** An exception inside [try: with transaction.atomic(): ... except
    Exception:] leaves the store as it was and runs the handler. *)
Lemma try_atomic_inl {A} (body handler : M A) e st st' :
  body st = (inl e, st') ->
  try_except (atomic body) Exception handler st = handler st.
Proof. intros Hbody. unfold try_except, atomic. by rewrite Hbody. Qed.

Lemma try_atomic_inr {A} (body handler : M A) a st st' :
  body st = (inr a, st') ->
  try_except (atomic body) Exception handler st = (inr a, st').
Proof. intros Hbody. unfold try_except, atomic. by rewrite Hbody. Qed.

Lemma set_room_amenities_id st : set_room_amenities (λ l, l) st = st.
Proof. by destruct st. Qed.

(** ** The join table *)

Lemma elem_of_amenities_all room_pk amenity_pk st :
  amenity_pk ∈ amenities_all room_pk st
  ↔ (room_pk, amenity_pk) ∈ room_amenities st.
Proof.
  unfold amenities_all. rewrite list_elem_of_fmap. split.
  - intros ([r a] & -> & Hin). apply list_elem_of_filter in Hin as [Hr Hin].
    simpl in *. by subst.
  - intros Hin. exists (room_pk, amenity_pk). split; [done |].
    by apply list_elem_of_filter.
Qed.

Lemma elem_of_add_link room_pk amenity_pk links row :
  row ∈ add_link room_pk amenity_pk links
  ↔ row ∈ links ∨ row = (room_pk, amenity_pk).
Proof.
  unfold add_link. case_decide as Hin.
  - split; [by left | intros [? | ->]; done].
  - rewrite elem_of_app, list_elem_of_singleton. tauto.
Qed.

Lemma elem_of_add_links room_pk pks : ∀ links row,
  row ∈ add_links room_pk pks links
  ↔ row ∈ links ∨ (row.1 = room_pk ∧ row.2 ∈ pks).
Proof.
  unfold add_links. induction pks as [| a pks IH]; intros links row; simpl.
  - split; [by left | intros [? | [_ Hnil]]; [done | by inversion Hnil]].
  - rewrite IH, elem_of_add_link, elem_of_cons. destruct row as [r b]; simpl.
    split.
    + intros [[? | Heq] | [? ?]]; [by left | | by right; split; [| right]].
      inversion Heq; subst. right. split; [done | by left].
    + intros [? | [-> [-> | ?]]]; [by left; left | by left; right | by right].
Qed.

(** The links of one room stay free of repetitions under [add]. *)
Lemma NoDup_links_add_link room_pk amenity_pk links :
  NoDup (filter (λ row : Z * Z, row.1 = room_pk) links).*2 ->
  NoDup (filter (λ row : Z * Z, row.1 = room_pk)
           (add_link room_pk amenity_pk links)).*2.
Proof.
  intros Hnd. unfold add_link. case_decide as Hin; [done |].
  rewrite filter_app, fmap_app. simpl.
  rewrite filter_cons_True by done. rewrite filter_nil. simpl.
  apply NoDup_app. split; [done |]. split; [| apply NoDup_singleton].
  intros a Ha Hb. apply list_elem_of_singleton in Hb as ->.
  apply list_elem_of_fmap in Ha as ([r a] & Heq & Hrow). simpl in Heq. subst a.
  apply list_elem_of_filter in Hrow as [Hr Hrow]. simpl in Hr. by subst r.
Qed.

Lemma NoDup_links_add_links room_pk pks : ∀ links,
  NoDup (filter (λ row : Z * Z, row.1 = room_pk) links).*2 ->
  NoDup (filter (λ row : Z * Z, row.1 = room_pk)
           (add_links room_pk pks links)).*2.
Proof.
  unfold add_links. induction pks as [| a pks IH]; intros links Hnd; simpl.
  - done.
  - apply IH. by apply NoDup_links_add_link.
Qed.

(** ** The two amenity loops *)

Lemma add_each_resolved room_pk pks : ∀ st,
  Forall (λ a, is_Some (amenities st !! a)) pks ->
  add_each room_pk pks st
  = (inr tt, set_room_amenities (add_links room_pk pks) st).
Proof.
  induction pks as [| a pks IH]; intros st Hall; simpl.
  - unfold ret. by rewrite set_room_amenities_id.
  - inversion Hall as [| ? ? [row Hrow] Hrest]; subst.
    unfold Amenity_objects_get.
    rewrite (bind_inr _ _ row st st) by by apply objects_get_Some.
    unfold amenities_add.
    rewrite (bind_inr _ _ tt st (set_room_amenities (add_link room_pk a) st))
      by done.
    by rewrite IH.
Qed.

Lemma add_each_unresolved room_pk missing pks : ∀ st,
  missing ∈ pks -> amenities st !! missing = None ->
  ∃ st', add_each room_pk pks st = (inl (DoesNotExist AmenityModel), st').
Proof.
  induction pks as [| a pks IH]; intros st Hin Hnone; simpl.
  - by inversion Hin.
  - unfold Amenity_objects_get. destruct (amenities st !! a) as [row |] eqn:Ha.
    + rewrite (bind_inr _ _ row st st) by by apply objects_get_Some.
      unfold amenities_add.
      rewrite (bind_inr _ _ tt st (set_room_amenities (add_link room_pk a) st))
        by done.
      apply IH; [| done].
      apply elem_of_cons in Hin as [-> | Hin]; [congruence | done].
    + exists st. apply bind_inl. by apply objects_get_None.
Qed.

Lemma get_each_resolved pks : ∀ amenity st,
  Forall (λ a, is_Some (amenities st !! a)) pks ->
  get_each pks amenity st = (inr (from_option Some amenity (last pks)), st).
Proof.
  induction pks as [| a pks IH]; intros amenity st Hall; simpl.
  - done.
  - inversion Hall as [| ? ? [row Hrow] Hrest]; subst.
    unfold Amenity_objects_get.
    rewrite (bind_inr _ _ row st st) by by apply objects_get_Some.
    rewrite IH by done. rewrite last_cons. by destruct (last pks).
Qed.

Lemma get_each_unresolved missing pks : ∀ amenity st,
  missing ∈ pks -> amenities st !! missing = None ->
  get_each pks amenity st = (inl (DoesNotExist AmenityModel), st).
Proof.
  induction pks as [| a pks IH]; intros amenity st Hin Hnone; simpl.
  - by inversion Hin.
  - unfold Amenity_objects_get. destruct (amenities st !! a) as [row |] eqn:Ha.
    + rewrite (bind_inr _ _ row st st) by by apply objects_get_Some.
      apply IH; [| done].
      apply elem_of_cons in Hin as [-> | Hin]; [congruence | done].
    + apply bind_inl. by apply objects_get_None.
Qed.

(** ** [Rooms.post] step by step *)

Lemma post_category_ROOM c category st :
  categories st !! c = Some category ->
  category_kind category = CategoryKindChoices.ROOM ->
  post_category c st = (inr category, st).
Proof.
  intros Hc Hkind. unfold post_category, try_except, Category_objects_get.
  rewrite (bind_inr _ _ category st st) by by apply objects_get_Some.
  by rewrite Hkind.
Qed.

Lemma post_category_EXPERIENCES c category st :
  categories st !! c = Some category ->
  category_kind category = CategoryKindChoices.EXPERIENCES ->
  post_category c st
  = (inl (ParseError "The category kind should be 'rooms'."), st).
Proof.
  intros Hc Hkind. unfold post_category, try_except, Category_objects_get.
  rewrite (bind_inr _ _ category st st) by by apply objects_get_Some.
  by rewrite Hkind.
Qed.

Lemma post_category_missing c st :
  categories st !! c = None ->
  post_category c st = (inl (ParseError "Category not found"), st).
Proof.
  intros Hc. unfold post_category, try_except, Category_objects_get.
  rewrite (bind_inl _ _ (DoesNotExist CategoryModel) st st)
    by by apply objects_get_None.
  done.
Qed.

(** Whatever the category, this block never writes. *)
Lemma post_category_store c st :
  ∃ r, post_category c st = (r, st)
       ∧ match r with
         | inr category =>
             categories st !! c = Some category
             ∧ category_kind category = CategoryKindChoices.ROOM
         | inl e => ∃ detail, e = ParseError detail
         end.
Proof.
  destruct (categories st !! c) as [category |] eqn:Hc.
  - destruct (category_kind category) eqn:Hkind.
    + exists (inr category). split; [by apply post_category_ROOM | done].
    + eexists (inl _).
      split; [by eapply post_category_EXPERIENCES | by eexists].
  - eexists (inl _). split; [by apply post_category_missing | by eexists].
Qed.

Lemma post_transaction_unresolved request u c pks missing st :
  user request = Some u ->
  data_amenities (data request) = AmList pks ->
  missing ∈ pks -> amenities st !! missing = None ->
  ∃ st', post_transaction request c st
         = (inl (DoesNotExist AmenityModel), st').
Proof.
  intros Hu Hpks Hin Hnone. unfold post_transaction, serializer_create.
  rewrite Hu, Hpks. simpl.
  destruct (add_each_unresolved (next_room_pk st) missing pks
              (created request u c st) Hin Hnone) as [st' Hloop].
  exists st'. unfold bind at 1 2 3. simpl.
  unfold bind at 1. simpl. unfold bind at 1. fold (created request u c st).
  by rewrite Hloop.
Qed.

Lemma post_transaction_not_iterable request u c st :
  user request = Some u ->
  (data_amenities (data request) = AmNone
   ∨ ∃ n, data_amenities (data request) = AmInt n) ->
  post_transaction request c st = (inl TypeError, created request u c st).
Proof.
  intros Hu Hnot. unfold post_transaction, serializer_create. rewrite Hu.
  destruct Hnot as [-> | [n ->]]; reflexivity.
Qed.

Lemma post_transaction_resolved request u c pks st :
  user request = Some u ->
  data_amenities (data request) = AmList pks ->
  Forall (λ a, is_Some (amenities st !! a)) pks ->
  let pk := next_room_pk st in
  let st' := set_room_amenities (add_links pk pks) (created request u c st) in
  post_transaction request c st
  = (inr (mkResponse HTTP_200_OK
            (RoomDetailBody
               (mkRoomData pk (default "" (data_name (data request)))
                  (default 0 (data_price (data request))) u (Some c)
                  (amenities_all pk st')))),
     st').
Proof.
  intros Hu Hpks Hall pk st'. unfold post_transaction, serializer_create.
  rewrite Hu, Hpks. simpl.
  pose proof (add_each_resolved pk pks (created request u c st) Hall)
    as Hloop.
  unfold bind at 1 2 3. simpl. unfold bind at 1. simpl. unfold bind at 1.
  fold (created request u c st). fold pk. by rewrite Hloop.
Qed.


(** The handler of [try: with transaction.atomic(): ... except Exception:] in
    [Rooms.post]. *)
Abbreviation post_guarded request c :=
  (try_except (atomic (post_transaction request c)) Exception
              (raise (ParseError "Amenity not found"))).

(** Up to the transaction [Rooms.post] only reads: either it stops there with
    a 400 or a 401 and the store as it found it, or it enters the transaction
    with an authenticated owner, valid data and a category of kind ROOM. *)
Lemma post_cases room_errors request st :
  (∃ outcome,
     as_view POST (Rooms_post room_errors) request tt st = (outcome, st)
     ∧ (http_status outcome = 400 ∨ outcome = inl NotAuthenticated)
     ∧ ¬ (is_Some (user request) ∧ room_errors (data request) = []
          ∧ ∃ c category, data_category (data request) = Some c ∧ c ≠ 0
              ∧ categories st !! c = Some category
              ∧ category_kind category = CategoryKindChoices.ROOM))
  ∨ (∃ u c category,
       user request = Some u ∧ room_errors (data request) = []
       ∧ data_category (data request) = Some c ∧ c ≠ 0
       ∧ categories st !! c = Some category
       ∧ category_kind category = CategoryKindChoices.ROOM
       ∧ as_view POST (Rooms_post room_errors) request tt st
         = post_guarded request c st).
Proof.
  unfold as_view, IsAuthenticatedOrReadOnly, is_authenticated.
  destruct (user request) as [u |] eqn:Hu; simpl.
  2: { left. eexists. split; [reflexivity |]. split; [by right |].
       intros [[? ?] _]. congruence. }
  unfold Rooms_post.
  destruct (room_errors (data request)) as [| err errs] eqn:Herr; simpl.
  2: { left. eexists. split; [reflexivity |]. split; [by left |].
       intros (_ & ? & _). congruence. }
  destruct (data_category (data request)) as [c |] eqn:Hc; simpl.
  2: { left. eexists. split; [reflexivity |]. split; [by left |].
       intros (_ & _ & ? & ? & ? & _). congruence. }
  destruct (Z.eqb_spec c 0) as [-> | Hc0]; simpl.
  { left. eexists. split; [reflexivity |]. split; [by left |].
    intros (_ & _ & ? & ? & ? & ? & _). congruence. }
  destruct (post_category_store c st) as (r & Hr & Hcase).
  destruct r as [e | category].
  - left. exists (inl e). split; [by apply bind_inl |].
    destruct Hcase as [detail ->]. split; [by left |].
    intros (_ & _ & c' & category & Hc' & _ & Hrow & Hkind).
    assert (c' = c) as -> by congruence.
    rewrite (post_category_ROOM c category st Hrow Hkind) in Hr. congruence.
  - right. destruct Hcase as [Hrow Hkind]. exists u, c, category.
    repeat split; try done. by rewrite (bind_inr _ _ category st st).
Qed.

(** ** Claims about room creation *)

(** C1. A Room-create request whose amenity list names an amenity that does
    not exist leaves the store exactly as it was -- no Room row, no amenity
    link -- and fails; once the request is authenticated, valid and carries a
    ROOM category, that failure is [ParseError("Amenity not found")]. *)
Theorem create_unresolved_amenity_rolls_back
    room_errors request st pks missing :
  data_amenities (data request) = AmList pks ->
  missing ∈ pks ->
  amenities st !! missing = None ->
  ∃ outcome,
    as_view POST (Rooms_post room_errors) request tt st = (outcome, st)
    ∧ (http_status outcome = 400 ∨ outcome = inl NotAuthenticated)
    ∧ ∀ u c category,
        user request = Some u ->
        room_errors (data request) = [] ->
        data_category (data request) = Some c -> c ≠ 0 ->
        categories st !! c = Some category ->
        category_kind category = CategoryKindChoices.ROOM ->
        outcome = inl (ParseError "Amenity not found").
Proof.
  intros Hpks Hin Hnone.
  destruct (post_cases room_errors request st)
    as [(outcome & Hrun & Hfail & Hstop)
       | (u & c & category & Hu & Herr & Hc & Hc0 & Hrow & Hkind & Hrun)].
  - exists outcome. repeat split; try done.
    intros u c category Hu Herr Hc Hc0 Hrow Hkind. destruct Hstop.
    split; [by rewrite Hu |]. split; [done |]. by exists c, category.
  - destruct (post_transaction_unresolved request u c pks missing st
                Hu Hpks Hin Hnone) as [st' Hbody].
    rewrite (try_atomic_inl _ _ _ st st' Hbody) in Hrun.
    exists (inl (ParseError "Amenity not found")).
    split; [exact Hrun |]. split; [by left | done].
Qed.

(** C4. A Room-create request by an authenticated user whose category exists
    with kind EXPERIENCES is answered with a 400 and writes nothing: the
    serializer's errors when the body is invalid, a [ParseError] otherwise. *)
Theorem create_with_experience_category_fails
    room_errors request st c category :
  is_authenticated request = true ->
  data_category (data request) = Some c ->
  categories st !! c = Some category ->
  category_kind category = CategoryKindChoices.EXPERIENCES ->
  let errors := room_errors (data request) in
  let outcome : Outcome :=
    if is_valid errors then
      inl (ParseError (if c =? 0 then "Category is required."
                       else "The category kind should be 'rooms'."))
    else inr (mkResponse HTTP_400_BAD_REQUEST (ErrorsBody errors)) in
  as_view POST (Rooms_post room_errors) request tt st = (outcome, st)
  ∧ http_status outcome = 400.
Proof.
  intros Hauth Hc Hrow Hkind errors outcome. subst errors outcome. split.
  - unfold as_view, IsAuthenticatedOrReadOnly. rewrite Hauth. simpl.
    unfold Rooms_post. destruct (is_valid (room_errors (data request))).
    + rewrite Hc. simpl. destruct (c =? 0); simpl; [done |].
      apply bind_inl. by apply (post_category_EXPERIENCES c category).
    + done.
  - destruct (is_valid (room_errors (data request))); [| done].
    by destruct (c =? 0).
Qed.

(** C10. An authenticated Room-create request with valid data and a ROOM
    category, but with no [amenities] value or one that cannot be iterated,
    fails with [ParseError("Amenity not found")] and the store is left as it
    was: the [TypeError] of the loop is caught by [except Exception]. *)
Theorem create_without_amenities_reports_amenity_not_found
    room_errors request st u c category :
  user request = Some u ->
  room_errors (data request) = [] ->
  data_category (data request) = Some c -> c ≠ 0 ->
  categories st !! c = Some category ->
  category_kind category = CategoryKindChoices.ROOM ->
  (data_amenities (data request) = AmNone
   ∨ ∃ n, data_amenities (data request) = AmInt n) ->
  (post_transaction request c st).1 = inl TypeError
  ∧ as_view POST (Rooms_post room_errors) request tt st
    = (inl (ParseError "Amenity not found"), st).
Proof.
  intros Hu Herr Hc Hc0 Hrow Hkind Hnot.
  pose proof (post_transaction_not_iterable request u c st Hu Hnot) as Hbody.
  split; [by rewrite Hbody |].
  destruct (post_cases room_errors request st)
    as [(outcome & _ & _ & Hstop)
       | (u' & c' & category' & _ & _ & Hc' & _ & _ & _ & Hrun)].
  - destruct Hstop.
    split; [by rewrite Hu |]. split; [done |]. by exists c, category.
  - assert (c' = c) as -> by congruence.
    by rewrite Hrun, (try_atomic_inl _ _ _ st _ Hbody).
Qed.

Lemma no_links_filter_nil room_pk (links : list (Z * Z)) :
  (∀ a, (room_pk, a) ∉ links) ->
  filter (λ row : Z * Z, row.1 = room_pk) links = [].
Proof.
  intros Hnone. induction links as [| [r a] links IH]; [done |].
  rewrite filter_cons. case_decide as Hr; simpl in Hr.
  - subst r. destruct (Hnone a). by left.
  - apply IH. intros b Hb. apply (Hnone b). by right.
Qed.

(** C5. A valid Room-create request whose amenity identifiers all resolve
    answers 200 with the new Room; the Room's amenities are exactly the
    amenities named in the request, each of them once however often the
    request repeats it. *)
Theorem create_attaches_exactly_the_amenities
    room_errors request st u c category pks :
  user request = Some u ->
  room_errors (data request) = [] ->
  data_category (data request) = Some c -> c ≠ 0 ->
  categories st !! c = Some category ->
  category_kind category = CategoryKindChoices.ROOM ->
  data_amenities (data request) = AmList pks ->
  Forall (λ a, is_Some (amenities st !! a)) pks ->
  (∀ a, (next_room_pk st, a) ∉ room_amenities st) ->
  let pk := next_room_pk st in
  ∃ st' room_data room,
    as_view POST (Rooms_post room_errors) request tt st
    = (inr (mkResponse HTTP_200_OK (RoomDetailBody room_data)), st')
    ∧ rooms st' !! pk = Some room
    ∧ room_owner room = u ∧ room_category room = Some c
    ∧ rd_pk room_data = pk
    ∧ rd_amenities room_data = amenities_all pk st'
    ∧ NoDup (amenities_all pk st')
    ∧ (∀ a, a ∈ amenities_all pk st' ↔ a ∈ pks)
    ∧ amenities_all pk st' ≡ₚ remove_dups pks.
Proof.
  intros Hu Herr Hc Hc0 Hrow Hkind Hpks Hall Hfresh pk.
  pose proof (post_transaction_resolved request u c pks st Hu Hpks Hall)
    as Hbody. simpl in Hbody. fold pk in Hbody.
  set (st' := set_room_amenities (add_links pk pks) (created request u c st))
    in *.
  assert (Hrun : as_view POST (Rooms_post room_errors) request tt st
                 = post_guarded request c st).
  { destruct (post_cases room_errors request st)
      as [(outcome & _ & _ & Hstop)
         | (u' & c' & category' & _ & _ & Hc' & _ & _ & _ & Hrun)].
    - destruct Hstop.
      split; [by rewrite Hu |]. split; [done |]. by exists c, category.
    - assert (c' = c) as -> by congruence. done. }
  rewrite (try_atomic_inr _ _ _ st st' Hbody) in Hrun.
  assert (Hnodup : NoDup (amenities_all pk st')).
  { unfold amenities_all, st'. simpl. apply NoDup_links_add_links.
    rewrite no_links_filter_nil by done. apply NoDup_nil_2. }
  assert (Hmem : ∀ a, a ∈ amenities_all pk st' ↔ a ∈ pks).
  { intros a. rewrite elem_of_amenities_all. unfold st'. simpl.
    rewrite elem_of_add_links. simpl. split.
    - intros [Hold | [_ Hin]]; [by destruct (Hfresh a) | done].
    - intros Hin. by right. }
  eexists st', _, _. split; [exact Hrun |].
  split; [by apply lookup_insert_eq |]. simpl.
  repeat split; try done.
  - by apply Hmem.
  - by apply Hmem.
  - apply NoDup_Permutation; [done | apply NoDup_remove_dups |].
    intros a. by rewrite Hmem, elem_of_remove_dups.
Qed.

(** ** [RoomDetail] step by step *)

Lemma get_object_found pk room st :
  rooms st !! pk = Some room -> RoomDetail_get_object pk st = (inr room, st).
Proof.
  intros Hroom. unfold RoomDetail_get_object, try_except, Room_objects_get.
  by rewrite (objects_get_Some rooms RoomModel pk room st Hroom).
Qed.

Lemma get_object_missing pk st :
  rooms st !! pk = None -> RoomDetail_get_object pk st = (inl NotFound, st).
Proof.
  intros Hroom. unfold RoomDetail_get_object, try_except, Room_objects_get.
  by rewrite (objects_get_None rooms RoomModel pk st Hroom).
Qed.

Lemma owner_differs_false room request :
  owner_differs room request = false ↔ user request = Some (room_owner room).
Proof.
  unfold owner_differs. destruct (user request) as [u |]; [| done].
  destruct (Z.eqb_spec (room_owner room) u); simpl; split; congruence.
Qed.

Lemma refused_or_owner st request pk :
  (∃ e, refusal st request pk e)
  ∨ (∃ room, rooms st !! pk = Some room
             ∧ user request = Some (room_owner room)).
Proof.
  destruct (user request) as [u |] eqn:Hu.
  - destruct (rooms st !! pk) as [room |] eqn:Hroom.
    + destruct (decide (room_owner room = u)) as [<- | Hne].
      * right. by exists room.
      * left. eexists. by eapply refuse_stranger.
    + left. eexists. by eapply refuse_missing.
  - left. eexists. by apply refuse_anonymous.
Qed.

Lemma put_refused room_errors_partial st request pk e :
  refusal st request pk e ->
  as_view PUT (RoomDetail_put room_errors_partial) request pk st = (inl e, st).
Proof.
  unfold as_view, IsAuthenticatedOrReadOnly, is_authenticated.
  intros [Hu | u Hu Hroom | u room Hu Hroom Hne]; rewrite Hu; simpl.
  - done.
  - unfold RoomDetail_put. apply bind_inl. by apply get_object_missing.
  - unfold RoomDetail_put.
    rewrite (bind_inr _ _ room st st) by by apply get_object_found.
    unfold owner_differs. rewrite Hu.
    by destruct (Z.eqb_spec (room_owner room) u).
Qed.

Lemma delete_refused st request pk e :
  refusal st request pk e ->
  as_view DELETE RoomDetail_delete request pk st = (inl e, st).
Proof.
  unfold as_view, IsAuthenticatedOrReadOnly, is_authenticated.
  intros [Hu | u Hu Hroom | u room Hu Hroom Hne]; rewrite Hu; simpl.
  - done.
  - unfold RoomDetail_delete. apply bind_inl. by apply get_object_missing.
  - unfold RoomDetail_delete.
    rewrite (bind_inr _ _ room st st) by by apply get_object_found.
    unfold owner_differs. rewrite Hu.
    by destruct (Z.eqb_spec (room_owner room) u).
Qed.

(** C6. Update and delete are the owner's alone.  An anonymous requester is
    answered [NotAuthenticated], an authenticated one naming a room that does
    not exist [NotFound], an authenticated one who is not the owner
    [PermissionDenied]; each time the store is untouched.  So whenever an
    update or a delete changes the store, the requester is the room's
    owner. *)
Theorem only_owner_updates_or_deletes room_errors_partial st request pk :
  let put := as_view PUT (RoomDetail_put room_errors_partial) request pk st in
  let del := as_view DELETE RoomDetail_delete request pk st in
  (user request = None ->
   put = (inl NotAuthenticated, st) ∧ del = (inl NotAuthenticated, st))
  ∧ (is_Some (user request) -> rooms st !! pk = None ->
     put = (inl NotFound, st) ∧ del = (inl NotFound, st))
  ∧ (∀ u room, user request = Some u -> rooms st !! pk = Some room ->
       room_owner room ≠ u ->
       put = (inl PermissionDenied, st) ∧ del = (inl PermissionDenied, st))
  ∧ (put.2 ≠ st ∨ del.2 ≠ st ->
     ∃ room, rooms st !! pk = Some room
             ∧ user request = Some (room_owner room)).
Proof.
  intros put del. subst put del.
  assert (Hboth : ∀ e, refusal st request pk e ->
            as_view PUT (RoomDetail_put room_errors_partial) request pk st
            = (inl e, st)
            ∧ as_view DELETE RoomDetail_delete request pk st = (inl e, st)).
  { intros e He. split; [by apply put_refused | by apply delete_refused]. }
  split; [| split; [| split]].
  - intros Hu. by apply Hboth, refuse_anonymous.
  - intros [u Hu] Hroom. by apply Hboth, (refuse_missing _ _ _ u).
  - intros u room Hu Hroom Hne.
    by apply Hboth, (refuse_stranger _ _ _ u room).
  - destruct (refused_or_owner st request pk) as [[e He] | Howner]; [| done].
    destruct (Hboth e He) as [-> ->]. simpl. intros [? | ?]; done.
Qed.

(** *** The update transaction *)

Lemma put_owner_valid room_errors_partial request pk room st :
  rooms st !! pk = Some room ->
  user request = Some (room_owner room) ->
  room_errors_partial (data request) = [] ->
  as_view PUT (RoomDetail_put room_errors_partial) request pk st
  = (let* returned :=
       try_except (atomic (put_transaction pk room request)) Exception
                  (raise (ParseError "Amenity not Found")) in
     match returned with
     | Some response => ret response
     | None => ret (mkResponse HTTP_200_OK (ErrorsBody []))
     end) st.
Proof.
  intros Hroom Hu Hvalid.
  unfold as_view, IsAuthenticatedOrReadOnly, is_authenticated.
  rewrite Hu. simpl. unfold RoomDetail_put.
  rewrite (bind_inr _ _ room st st) by by apply get_object_found.
  rewrite (proj2 (owner_differs_false room request) Hu).
  by rewrite Hvalid.
Qed.

(** An owner whose body does not validate is answered [NotAuthenticated]. *)
Lemma put_invalid_body room_errors_partial request pk room st :
  rooms st !! pk = Some room ->
  user request = Some (room_owner room) ->
  room_errors_partial (data request) ≠ [] ->
  as_view PUT (RoomDetail_put room_errors_partial) request pk st
  = (inl NotAuthenticated, st).
Proof.
  intros Hroom Hu Hinvalid.
  unfold as_view, IsAuthenticatedOrReadOnly, is_authenticated.
  rewrite Hu. simpl. unfold RoomDetail_put.
  rewrite (bind_inr _ _ room st st) by by apply get_object_found.
  rewrite (proj2 (owner_differs_false room request) Hu).
  by destruct (room_errors_partial (data request)).
Qed.

Lemma put_save_accepted pk room request st :
  category_accepted st request ->
  ∃ st2,
    put_save pk room request st = (inr (saved_room request room), st2)
    ∧ rooms st2 !! pk = Some (saved_room request room)
    ∧ amenities st2 = amenities st
    ∧ room_amenities st2 = room_amenities st.
Proof.
  unfold put_save, saved_room, serializer_update.
  intros [Hfalsy | (c & category & Hc & Hc0 & Hrow & Hkind)].
  - rewrite Hfalsy. eexists. split; [reflexivity |]. simpl.
    split; [by apply lookup_insert_eq | done].
  - rewrite Hc. simpl. destruct (Z.eqb_spec c 0) as [? | _]; [done |]. simpl.
    eexists. split.
    + unfold bind at 1 2. simpl. unfold Category_objects_get.
      erewrite bind_inr; [| by apply objects_get_Some].
      rewrite Hkind. simpl. reflexivity.
    + simpl. split; [by apply lookup_insert_eq | done].
Qed.

Lemma clear_links_no_links pk (links : list (Z * Z)) :
  filter (λ row : Z * Z, row.1 = pk) (clear_links pk links) = [].
Proof.
  apply no_links_filter_nil. intros a Hin.
  apply list_elem_of_filter in Hin as [Hne _]. by apply Hne.
Qed.

Lemma put_amenities_last pk inst request st pks amenity_pk :
  data_amenities (data request) = AmList pks ->
  last pks = Some amenity_pk ->
  Forall (λ a, is_Some (amenities st !! a)) pks ->
  let st' := set_room_amenities
               (λ links, (clear_links pk links ++ [(pk, amenity_pk)])%list) st in
  put_amenities pk inst request st
  = (inr (Some (mkResponse HTTP_200_OK
                  (RoomDetailBody
                     (mkRoomData pk (room_name inst) (room_price inst)
                        (room_owner inst) (room_category inst)
                        [amenity_pk])))),
     st')
  ∧ amenities_all pk st' = [amenity_pk].
Proof.
  intros Hpks Hlast Hall st'.
  assert (Hfresh : (pk, amenity_pk) ∉ clear_links pk (room_amenities st)).
  { intros Hin. apply list_elem_of_filter in Hin as [Hne _]. by apply Hne. }
  assert (Hlinks : amenities_all pk st' = [amenity_pk]).
  { unfold amenities_all, st'. simpl.
    rewrite filter_app, clear_links_no_links. simpl.
    by rewrite filter_cons_True, filter_nil by done. }
  split; [| done].
  unfold put_amenities. rewrite Hpks.
  destruct pks as [| a pks]; [done |].
  change (truthy_amenities (AmList (a :: pks))) with true. cbv iota.
  unfold amenities_clear.
  erewrite bind_inr; [| reflexivity].
  erewrite bind_inr; [| reflexivity].
  erewrite bind_inr; [| by apply get_each_resolved].
  rewrite Hlast. simpl. unfold amenities_add.
  erewrite bind_inr; [| reflexivity].
  unfold RoomDetailSerializer_data.
  unfold bind, get_store, ret.
  assert (Hst : set_room_amenities (add_link pk amenity_pk)
                  (set_room_amenities (clear_links pk) st) = st').
  { unfold st', set_room_amenities.
    cbn [rooms categories amenities room_amenities bookings next_room_pk].
    unfold add_link. by rewrite decide_False. }
  by rewrite Hst, Hlinks.
Qed.

Lemma put_amenities_skipped pk inst request st :
  truthy_amenities (data_amenities (data request)) = false ->
  put_amenities pk inst request st = (inr None, st).
Proof. intros Hfalsy. unfold put_amenities. by rewrite Hfalsy. Qed.

(** What [RoomDetail.put] does with an amenity list that resolves: the room
    keeps one amenity, the last of the list. *)
Lemma put_keeps_last_amenity
    room_errors_partial request pk room st pks amenity_pk :
  rooms st !! pk = Some room ->
  user request = Some (room_owner room) ->
  room_errors_partial (data request) = [] ->
  category_accepted st request ->
  data_amenities (data request) = AmList pks ->
  last pks = Some amenity_pk ->
  Forall (λ a, is_Some (amenities st !! a)) pks ->
  ∃ st' room_data,
    as_view PUT (RoomDetail_put room_errors_partial) request pk st
    = (inr (mkResponse HTTP_200_OK (RoomDetailBody room_data)), st')
    ∧ rooms st' !! pk = Some (saved_room request room)
    ∧ amenities_all pk st' = [amenity_pk]
    ∧ rd_amenities room_data = [amenity_pk].
Proof.
  intros Hroom Hu Hvalid Hcat Hpks Hlast Hall.
  rewrite (put_owner_valid _ _ _ room) by done.
  destruct (put_save_accepted pk room request st Hcat)
    as (st2 & Hsave & Hrow & Ham & _).
  rewrite <- Ham in Hall.
  destruct (put_amenities_last pk (saved_room request room) request st2 pks
              amenity_pk Hpks Hlast Hall) as [Hattach Hlinks].
  simpl in Hattach, Hlinks.
  set (st' := set_room_amenities _ st2) in *.
  assert (Hbody : put_transaction pk room request st
                  = put_amenities pk (saved_room request room) request st2).
  { unfold put_transaction. by rewrite (bind_inr _ _ _ _ _ Hsave). }
  rewrite Hattach in Hbody.
  rewrite (bind_inr _ _ _ _ _ (try_atomic_inr _ _ _ _ _ Hbody)).
  eexists st', _. split; [reflexivity |]. done.
Qed.

(** What [RoomDetail.put] answers when the request names no amenities: the
    update is written, and the body of the 200 is [serializer.errors]. *)
Lemma put_without_amenities_answers_errors
    room_errors_partial request pk room st :
  rooms st !! pk = Some room ->
  user request = Some (room_owner room) ->
  room_errors_partial (data request) = [] ->
  category_accepted st request ->
  truthy_amenities (data_amenities (data request)) = false ->
  ∃ st',
    as_view PUT (RoomDetail_put room_errors_partial) request pk st
    = (inr (mkResponse HTTP_200_OK (ErrorsBody [])), st')
    ∧ rooms st' !! pk = Some (saved_room request room).
Proof.
  intros Hroom Hu Hvalid Hcat Hfalsy.
  rewrite (put_owner_valid _ _ _ room) by done.
  destruct (put_save_accepted pk room request st Hcat)
    as (st2 & Hsave & Hrow & _).
  assert (Hbody : put_transaction pk room request st = (inr None, st2)).
  { unfold put_transaction. rewrite (bind_inr _ _ _ _ _ Hsave).
    by apply put_amenities_skipped. }
  rewrite (bind_inr _ _ _ _ _ (try_atomic_inr _ _ _ _ _ Hbody)).
  by exists st2.
Qed.

(** ** Claims about room update *)

(** C2.  Room 1 has amenities A = 1 and B = 2; its owner updates it with the
    amenity list B, C = 2, 3, both of which exist.  The update answers 200,
    and the room is left with C alone: the list is walked to resolve every
    identifier, and only the last one is attached. *)
Theorem update_with_amenity_list_keeps_only_last :
  let result :=
    as_view PUT (RoomDetail_put sample_errors_partial) replace_request 1
            sample_store in
  amenities_all 1 sample_store = [1; 2]
  ∧ result.1 = inr (mkResponse HTTP_200_OK
                      (RoomDetailBody
                         (mkRoomData 1 "loft" 100 7 (Some 1) [3])))
  ∧ amenities_all 1 result.2 = [3].
Proof. vm_compute. done. Qed.

(** C3.  The owner of room 1 renames it, naming no amenities.  The new name
    is written to the store and the answer is a 200, but its body is the
    serializer's (empty) error list, not the updated Room. *)
Theorem update_without_amenities_returns_errors_not_room :
  let result :=
    as_view PUT (RoomDetail_put sample_errors_partial) rename_request 1
            sample_store in
  result.1 = inr (mkResponse HTTP_200_OK (ErrorsBody []))
  ∧ rooms result.2 !! 1 = Some (mkRoom "suite" 100 7 (Some 1))
  ∧ rooms sample_store !! 1 = Some (mkRoom "loft" 100 7 (Some 1)).
Proof. vm_compute. done. Qed.

(** C8.  The owner of room 1 sends a body the schema rejects (a negative
    price).  The view raises [NotAuthenticated], a 401, where a 400 with the
    validation errors was due. *)
Theorem update_with_invalid_body_raises_not_authenticated :
  sample_errors_partial (data negative_price_request) = ["price"]
  ∧ user negative_price_request
    = room_owner <$> rooms sample_store !! 1
  ∧ as_view PUT (RoomDetail_put sample_errors_partial)
            negative_price_request 1 sample_store
    = (inl NotAuthenticated, sample_store)
  ∧ http_status (inl NotAuthenticated) = 401.
Proof.
  split; [done |]. split; [done |]. split; [| done].
  by apply (put_invalid_body _ _ _ (mkRoom "loft" 100 7 (Some 1))).
Qed.

(** ** Claims about listings *)

Lemma bookings_get_found now request pk room st :
  rooms st !! pk = Some room ->
  as_view GET (RoomBookings_get now) request pk st
  = (inr (mkResponse HTTP_200_OK
            (BookingListBody (filter (upcoming pk now) (bookings st)))),
     st).
Proof.
  intros Hroom. unfold as_view. simpl. unfold RoomBookings_get.
  erewrite bind_inr; [reflexivity |].
  unfold RoomBookings_get_object, try_except, Room_objects_get.
  by rewrite (objects_get_Some rooms RoomModel pk room st Hroom).
Qed.

(** C7, as the code has it.  For a room that exists, the booking list holds
    exactly the bookings of that room with kind ROOM and a check-in after
    [now], each once, in the order the Booking table holds them; nothing
    sorts them by check-in.  The store is only read. *)
Theorem upcoming_bookings_in_table_order now request pk room st :
  rooms st !! pk = Some room ->
  ∃ listed,
    as_view GET (RoomBookings_get now) request pk st
    = (inr (mkResponse HTTP_200_OK (BookingListBody listed)), st)
    ∧ listed = filter (upcoming pk now) (bookings st)
    ∧ (∀ b, b ∈ listed
            ↔ b ∈ bookings st
              ∧ booking_room b.2 = Some pk
              ∧ booking_kind b.2 = BookingKindChoices.ROOM
              ∧ now < check_in b.2)
    ∧ listed `sublist_of` bookings st.
Proof.
  intros Hroom. eexists. split; [by eapply bookings_get_found |].
  split; [done |]. split.
  - intros b. rewrite list_elem_of_filter. unfold upcoming. tauto.
  - apply sublist_filter.
Qed.

(** C7 as stated fails: with the later stay booked first, the list comes
    back with check-in 20 ahead of check-in 10. *)
Lemma upcoming_bookings_not_sorted :
  ∃ listed,
    as_view GET (RoomBookings_get 5) (request_of None no_data) 1 sample_store
    = (inr (mkResponse HTTP_200_OK (BookingListBody listed)), sample_store)
    ∧ (∀ b, b ∈ listed -> upcoming 1 5 b)
    ∧ ¬ Sorted Z.le ((λ b : Z * Booking, check_in b.2) <$> listed).
Proof.
  exists (bookings sample_store). split; [by vm_compute |]. split.
  - intros b Hb. simpl in Hb.
    repeat (apply elem_of_cons in Hb as [-> | Hb]; [by vm_compute |]).
    by inversion Hb.
  - simpl. intros Hsorted. inversion Hsorted as [| ? ? _ Hhd]; subst.
    inversion Hhd as [| ? ? Hle]; subst. simpl in Hle. lia.
Qed.

Lemma rooms_get_run request st :
  as_view GET Rooms_get request tt st
  = (inr (mkResponse HTTP_200_OK (RoomListBody (map_to_list (rooms st)))), st).
Proof. done. Qed.

(** C9, as the code has it.  [GET /rooms] answers 200 with every Room of the
    store in one list; the request -- its [page] parameter, valid or not,
    included -- has no part in the answer. *)
Theorem room_list_is_whole_table request st :
  as_view GET Rooms_get request tt st
  = (inr (mkResponse HTTP_200_OK (RoomListBody (map_to_list (rooms st)))), st)
  ∧ ∀ request',
      as_view GET Rooms_get request' tt st = as_view GET Rooms_get request tt st.
Proof. split; [apply rooms_get_run |]. intros request'. by rewrite !rooms_get_run. Qed.

(** C9 as stated fails: no page size makes [GET /rooms] a paginated list.
    With two rooms stored, [?page=2] is answered with both. *)
Lemma room_list_not_paginated :
  ¬ ∃ page_size, 0 < page_size
      ∧ ∀ request st,
          as_view GET Rooms_get request tt st
          = (inr (mkResponse HTTP_200_OK
                    (RoomListBody
                       (spec_page_slice page_size (spec_page request)
                          (map_to_list (rooms st))))),
             st).
Proof.
  intros (page_size & Hpos & Hpaged).
  specialize (Hpaged page_two_request two_rooms).
  rewrite rooms_get_run in Hpaged.
  change (spec_page page_two_request) with 2 in Hpaged.
  remember (map_to_list (rooms two_rooms)) as all_rooms eqn:Hall.
  assert (Hlen : length all_rooms = 2%nat) by (subst all_rooms; by vm_compute).
  clear Hall. inversion Hpaged as [Hlist].
  apply (f_equal length) in Hlist.
  unfold spec_page_slice in Hlist.
  rewrite length_take, length_drop, Hlen in Hlist. lia.
Qed.

(** ** The claims at work on the sample store *)

Lemma create_unresolved_amenity_rolls_back_witness :
  (data_amenities (data bad_amenity_request) = AmList [2; 9]
   ∧ 9 ∈ [2; 9]
   ∧ amenities sample_store !! 9 = None)
  ∧ as_view POST (Rooms_post sample_errors) bad_amenity_request tt sample_store
    = (inl (ParseError "Amenity not found"), sample_store).
Proof.
  assert (Hin : 9 ∈ [2; 9]) by (by apply (bool_decide_unpack _); vm_compute).
  split; [by repeat split |].
  destruct (create_unresolved_amenity_rolls_back sample_errors
              bad_amenity_request sample_store [2; 9] 9
              eq_refl Hin eq_refl) as (outcome & Hrun & _ & Hdetail).
  rewrite Hrun. f_equal.
  apply (Hdetail 7 1 (mkCategory "rooms" CategoryKindChoices.ROOM));
    reflexivity || lia.
Defined.

Lemma create_with_experience_category_fails_witness :
  (is_authenticated experience_request = true
   ∧ data_category (data experience_request) = Some 2
   ∧ categories sample_store !! 2
     = Some (mkCategory "tours" CategoryKindChoices.EXPERIENCES))
  ∧ as_view POST (Rooms_post sample_errors) experience_request tt sample_store
    = (inl (ParseError "The category kind should be 'rooms'."), sample_store).
Proof.
  split; [by repeat split |].
  apply (create_with_experience_category_fails sample_errors
           experience_request sample_store 2
           (mkCategory "tours" CategoryKindChoices.EXPERIENCES));
    reflexivity.
Defined.

Lemma create_attaches_exactly_the_amenities_witness :
  ∃ st' room_data room,
    as_view POST (Rooms_post sample_errors) repeated_amenity_request tt
            sample_store
    = (inr (mkResponse HTTP_200_OK (RoomDetailBody room_data)), st')
    ∧ rooms st' !! 2 = Some room
    ∧ room_owner room = 7 ∧ room_category room = Some 1
    ∧ rd_pk room_data = 2
    ∧ rd_amenities room_data = amenities_all 2 st'
    ∧ NoDup (amenities_all 2 st')
    ∧ (∀ a, a ∈ amenities_all 2 st' ↔ a ∈ [2; 3; 2])
    ∧ amenities_all 2 st' ≡ₚ remove_dups [2; 3; 2].
Proof.
  apply (create_attaches_exactly_the_amenities sample_errors
           repeated_amenity_request sample_store 7 1
           (mkCategory "rooms" CategoryKindChoices.ROOM) [2; 3; 2]);
    try reflexivity.
  - lia.
  - repeat (constructor; [by eexists |]). constructor.
  - intros a Hin. simpl in Hin.
    repeat (apply elem_of_cons in Hin as [Heq | Hin]; [by inversion Heq |]).
    by inversion Hin.
Defined.

Lemma create_without_amenities_reports_amenity_not_found_witness :
  (user no_amenities_request = Some 7
   ∧ sample_errors (data no_amenities_request) = []
   ∧ data_amenities (data no_amenities_request) = AmNone)
  ∧ (post_transaction no_amenities_request 1 sample_store).1 = inl TypeError
  ∧ as_view POST (Rooms_post sample_errors) no_amenities_request tt
            sample_store
    = (inl (ParseError "Amenity not found"), sample_store).
Proof.
  split; [by repeat split |].
  apply (create_without_amenities_reports_amenity_not_found sample_errors
           no_amenities_request sample_store 7 1
           (mkCategory "rooms" CategoryKindChoices.ROOM));
    try reflexivity.
  - lia.
  - by left.
Defined.

Lemma only_owner_updates_or_deletes_witness :
  let stranger := request_of (Some 8) no_data in
  let anonymous := request_of None rename_request.(data) in
  (as_view PUT (RoomDetail_put sample_errors_partial) stranger 1 sample_store
   = (inl PermissionDenied, sample_store)
   ∧ as_view DELETE RoomDetail_delete stranger 1 sample_store
     = (inl PermissionDenied, sample_store))
  ∧ (as_view PUT (RoomDetail_put sample_errors_partial) anonymous 1
             sample_store
     = (inl NotAuthenticated, sample_store)
     ∧ as_view DELETE RoomDetail_delete anonymous 1 sample_store
       = (inl NotAuthenticated, sample_store))
  ∧ (as_view PUT (RoomDetail_put sample_errors_partial) stranger 5 sample_store
     = (inl NotFound, sample_store)
     ∧ as_view DELETE RoomDetail_delete stranger 5 sample_store
       = (inl NotFound, sample_store)).
Proof.
  intros stranger anonymous. split; [| split].
  - destruct (only_owner_updates_or_deletes sample_errors_partial
                sample_store stranger 1) as (_ & _ & Hstranger & _).
    apply (Hstranger 8 (mkRoom "loft" 100 7 (Some 1)));
      reflexivity || (simpl; lia).
  - destruct (only_owner_updates_or_deletes sample_errors_partial
                sample_store anonymous 1) as (Hanonymous & _).
    by apply Hanonymous.
  - destruct (only_owner_updates_or_deletes sample_errors_partial
                sample_store stranger 5) as (_ & Hmissing & _).
    apply Hmissing; [by eexists | reflexivity].
Defined.

Lemma upcoming_bookings_in_table_order_witness :
  rooms sample_store !! 1 = Some (mkRoom "loft" 100 7 (Some 1))
  ∧ ∃ listed,
      as_view GET (RoomBookings_get 15) (request_of None no_data) 1
              sample_store
      = (inr (mkResponse HTTP_200_OK (BookingListBody listed)), sample_store)
      ∧ listed = filter (upcoming 1 15) (bookings sample_store)
      ∧ (∀ b, b ∈ listed
              ↔ b ∈ bookings sample_store
                ∧ booking_room b.2 = Some 1
                ∧ booking_kind b.2 = BookingKindChoices.ROOM
                ∧ 15 < check_in b.2)
      ∧ listed `sublist_of` bookings sample_store.
Proof.
  split; [reflexivity |].
  apply (upcoming_bookings_in_table_order 15 (request_of None no_data) 1
           (mkRoom "loft" 100 7 (Some 1)) sample_store).
  reflexivity.
Defined.

(** * Further properties of the views *)

(** ** Room creation *)

Lemma add_links_extends room_pk pks : ∀ links,
  ∃ new_links,
    add_links room_pk pks links = (links ++ new_links)%list
    ∧ Forall (λ row : Z * Z, row.1 = room_pk) new_links.
Proof.
  unfold add_links. induction pks as [| a pks IH]; intros links; simpl.
  - exists []. by rewrite app_nil_r.
  - destruct (IH (add_link room_pk a links)) as (more & -> & Hmore).
    unfold add_link. case_decide.
    + by exists more.
    + exists ((room_pk, a) :: more). split; [by rewrite <- app_assoc |].
      by constructor.
Qed.

(** Whether the loop of [Rooms.post] ends or raises, all it has done is to
    append links of the room it works on. *)
Lemma add_each_extends room_pk pks : ∀ st r st',
  add_each room_pk pks st = (r, st') ->
  ∃ new_links,
    st' = set_room_amenities (λ links, (links ++ new_links)%list) st
    ∧ Forall (λ row : Z * Z, row.1 = room_pk) new_links.
Proof.
  induction pks as [| a pks IH]; intros st r st' Hrun; simpl in Hrun.
  - inversion Hrun; subst. exists []. split; [| done].
    destruct st'. unfold set_room_amenities. simpl. by rewrite app_nil_r.
  - unfold Amenity_objects_get in Hrun.
    destruct (amenities st !! a) as [row |] eqn:Ha.
    + rewrite (bind_inr _ _ row st st) in Hrun by by apply objects_get_Some.
      unfold amenities_add in Hrun.
      rewrite (bind_inr _ _ tt st (set_room_amenities (add_link room_pk a) st))
        in Hrun by done.
      apply IH in Hrun as (more & -> & Hmore).
      unfold add_link, set_room_amenities. simpl. case_decide.
      * by exists more.
      * exists ((room_pk, a) :: more). split; [| by constructor].
        by rewrite <- app_assoc.
    + rewrite (bind_inl _ _ (DoesNotExist AmenityModel) st st) in Hrun
        by by apply objects_get_None.
      inversion Hrun; subst. exists []. split; [| done].
      destruct st'. unfold set_room_amenities. simpl. by rewrite app_nil_r.
Qed.

Lemma post_guarded_extends request u c st r st' :
  user request = Some u ->
  post_guarded request c st = (r, st') ->
  st' = st
  ∨ ∃ new_links,
      st' = set_room_amenities (λ links, (links ++ new_links)%list)
              (created request u c st)
      ∧ Forall (λ row : Z * Z, row.1 = next_room_pk st) new_links.
Proof.
  intros Hu. unfold try_except, atomic.
  destruct (post_transaction request c st) as [[e | response] st1] eqn:Hbody.
  - simpl. intros Hrun. inversion Hrun. by left.
  - intros Hrun. inversion Hrun; subst. right.
    unfold post_transaction, serializer_create in Hbody. rewrite Hu in Hbody.
    destruct (data_amenities (data request)) as [| n | pks]; try done.
    simpl in Hbody. unfold bind at 1 2 3 in Hbody. simpl in Hbody.
    unfold bind at 1 in Hbody. simpl in Hbody. unfold bind at 1 in Hbody.
    fold (created request u c st) in Hbody.
    destruct (add_each (next_room_pk st) pks (created request u c st))
      as [[e | []] st2] eqn:Hloop; [done |].
    apply add_each_extends in Hloop as (new_links & -> & Hnew).
    inversion Hbody. by exists new_links.
Qed.

(** X2.  Whatever the request and however it ends, [Rooms.post] leaves every
    stored room, every link of a stored room, and the Category, Amenity and
    Booking tables as they were: at most it adds the row of the new room and
    links of that room. *)
Theorem create_leaves_existing_rows_alone room_errors request st :
  let st' := (as_view POST (Rooms_post room_errors) request tt st).2 in
  categories st' = categories st
  ∧ amenities st' = amenities st
  ∧ bookings st' = bookings st
  ∧ (∀ pk, pk ≠ next_room_pk st -> rooms st' !! pk = rooms st !! pk)
  ∧ ∃ new_links,
      room_amenities st' = (room_amenities st ++ new_links)%list
      ∧ Forall (λ row : Z * Z, row.1 = next_room_pk st) new_links.
Proof.
  intros st'. subst st'.
  assert (Hsame : ∀ st', st' = st ->
            categories st' = categories st ∧ amenities st' = amenities st
            ∧ bookings st' = bookings st
            ∧ (∀ pk, pk ≠ next_room_pk st -> rooms st' !! pk = rooms st !! pk)
            ∧ ∃ new_links,
                room_amenities st' = (room_amenities st ++ new_links)%list
                ∧ Forall (λ row : Z * Z, row.1 = next_room_pk st) new_links).
  { intros ? ->. repeat split; try done. exists []. by rewrite app_nil_r. }
  destruct (post_cases room_errors request st)
    as [(outcome & -> & _)
       | (u & c & category & Hu & _ & _ & _ & _ & _ & ->)].
  - by apply Hsame.
  - destruct (post_guarded request c st) as [r st'] eqn:Hrun.
    destruct (post_guarded_extends request u c st r st' Hu Hrun)
      as [-> | (new_links & -> & Hnew)]; [by apply Hsame |].
    simpl. repeat split; try done.
    + intros pk Hpk. by apply lookup_insert_ne.
    + by exists new_links.
Qed.


(** X3.  An authenticated create whose category key is absent (or 0), or
    names no stored category, writes nothing and is answered with a 400: the
    serializer's errors when the body is invalid, and only then "Category is
    required." or "Category not found". *)
Theorem create_without_usable_category_fails room_errors request st :
  is_authenticated request = true ->
  truthy_pk (data_category (data request)) = false
  ∨ (∃ c, data_category (data request) = Some c ∧ categories st !! c = None) ->
  let errors := room_errors (data request) in
  let outcome : Outcome :=
    if is_valid errors then
      inl (ParseError (if truthy_pk (data_category (data request))
                       then "Category not found"
                       else "Category is required."))
    else inr (mkResponse HTTP_400_BAD_REQUEST (ErrorsBody errors)) in
  as_view POST (Rooms_post room_errors) request tt st = (outcome, st)
  ∧ http_status outcome = 400.
Proof.
  intros Hauth Hcat errors outcome. subst errors outcome. split.
  - unfold as_view, IsAuthenticatedOrReadOnly. rewrite Hauth. simpl.
    unfold Rooms_post. destruct (is_valid (room_errors (data request))); [| done].
    destruct (truthy_pk (data_category (data request))) eqn:Htruthy; [| done].
    destruct Hcat as [? | (c & Hc & Hnone)]; [done |]. rewrite Hc. simpl.
    apply bind_inl. by apply post_category_missing.
  - destruct (is_valid (room_errors (data request))); [| done].
    by destruct (truthy_pk (data_category (data request))).
Qed.

(** X8.  After a create that succeeds, the room list is the list of before
    with the new room added, owned by the requester. *)
Theorem room_list_after_create
    room_errors request st u c category pks :
  user request = Some u ->
  room_errors (data request) = [] ->
  data_category (data request) = Some c -> c ≠ 0 ->
  categories st !! c = Some category ->
  category_kind category = CategoryKindChoices.ROOM ->
  data_amenities (data request) = AmList pks ->
  Forall (λ a, is_Some (amenities st !! a)) pks ->
  rooms st !! next_room_pk st = None ->
  ∃ response st' room listed,
    as_view POST (Rooms_post room_errors) request tt st = (inr response, st')
    ∧ (∀ reader,
         as_view GET Rooms_get reader tt st'
         = (inr (mkResponse HTTP_200_OK (RoomListBody listed)), st'))
    ∧ listed ≡ₚ (next_room_pk st, room) :: map_to_list (rooms st)
    ∧ room_owner room = u.
Proof.
  intros Hu Herr Hc Hc0 Hrow Hkind Hpks Hall Hfresh.
  pose proof (post_transaction_resolved request u c pks st Hu Hpks Hall)
    as Hbody. simpl in Hbody.
  destruct (post_cases room_errors request st)
    as [(outcome & _ & _ & Hstop)
       | (u' & c' & category' & _ & _ & Hc' & _ & _ & _ & Hrun)].
  { destruct Hstop.
    split; [by rewrite Hu |]. split; [done |]. by exists c, category. }
  assert (c' = c) as -> by congruence.
  rewrite (try_atomic_inr _ _ _ _ _ Hbody) in Hrun.
  eexists _, _, _, _. split; [exact Hrun |].
  split; [intros reader; apply rooms_get_run |]. simpl.
  split; [by apply map_to_list_insert | done].
Qed.

(** ** Upcoming bookings *)

Lemma filter_sublist_mono {A} (P Q : A -> Prop)
    `{!∀ x, Decision (P x)} `{!∀ x, Decision (Q x)} (l : list A) :
  (∀ x, P x -> Q x) -> filter P l `sublist_of` filter Q l.
Proof.
  intros HPQ. induction l as [| x l IH]; [done |].
  rewrite !filter_cons. destruct (decide (P x)) as [HP | HP].
  - rewrite decide_True by by apply HPQ. by apply sublist_skip.
  - destruct (decide (Q x)); [by apply sublist_cons | done].
Qed.

(** X9.  As the date moves on the list of upcoming bookings only loses
    entries: what is listed at a later date is a sublist of what was listed
    at an earlier one. *)
Theorem upcoming_bookings_shrink_with_date now later request pk room st :
  rooms st !! pk = Some room ->
  now ≤ later ->
  ∃ listed listed_later,
    as_view GET (RoomBookings_get now) request pk st
    = (inr (mkResponse HTTP_200_OK (BookingListBody listed)), st)
    ∧ as_view GET (RoomBookings_get later) request pk st
      = (inr (mkResponse HTTP_200_OK (BookingListBody listed_later)), st)
    ∧ listed_later `sublist_of` listed.
Proof.
  intros Hroom Hle. eexists _, _.
  split; [by eapply bookings_get_found |].
  split; [by eapply bookings_get_found |].
  apply filter_sublist_mono. unfold upcoming. intros b (? & ? & ?).
  repeat split; try done. lia.
Qed.

(** ** Room update *)

Lemma set_rooms_insert_twice pk (a b : Room) st :
  set_rooms (insert pk b) (set_rooms (insert pk a) st)
  = set_rooms (insert pk b) st.
Proof. unfold set_rooms. simpl. f_equal. apply insert_insert_eq. Qed.

(** The two saves of [RoomDetail.put] amount to one write of the row. *)
Lemma put_save_written pk room request st :
  category_accepted st request ->
  put_save pk room request st
  = (inr (saved_room request room),
     set_rooms (insert pk (saved_room request room)) st).
Proof.
  unfold put_save, saved_room, serializer_update.
  intros [Hfalsy | (c & category & Hc & Hc0 & Hrow & Hkind)].
  - rewrite Hfalsy. unfold bind, modify, ret. simpl.
    by rewrite set_rooms_insert_twice.
  - rewrite Hc. simpl. destruct (Z.eqb_spec c 0) as [? | _]; [done |]. simpl.
    unfold bind at 1 2. simpl. unfold Category_objects_get.
    erewrite bind_inr; [| by apply objects_get_Some].
    rewrite Hkind. simpl. unfold bind, modify, ret. simpl.
    by rewrite set_rooms_insert_twice.
Qed.

(** However the saves end, they write to the Room table only. *)
Lemma put_save_tables pk room request st r st2 :
  put_save pk room request st = (r, st2) ->
  ∃ f, st2 = set_rooms f st.
Proof.
  unfold put_save, serializer_update. unfold bind at 1 2. simpl.
  destruct (truthy_pk (data_category (data request))).
  - unfold Category_objects_get, bind at 1, objects_get. simpl.
    destruct (categories st !! _) as [category |].
    + destruct (CategoryKindChoices.eqb _ _); simpl.
      * unfold bind, modify, ret. simpl. intros Hrun. inversion Hrun.
        rewrite set_rooms_insert_twice. by eexists.
      * intros Hrun. inversion Hrun. by eexists.
    + intros Hrun. inversion Hrun. by eexists.
  - unfold bind, modify, ret. simpl. intros Hrun. inversion Hrun.
    rewrite set_rooms_insert_twice. by eexists.
Qed.

(** A category that is named and not accepted makes the saves raise. *)
Lemma put_save_refused pk room request st c :
  data_category (data request) = Some c -> c ≠ 0 ->
  categories st !! c = None
  ∨ (∃ category, categories st !! c = Some category
       ∧ category_kind category = CategoryKindChoices.EXPERIENCES) ->
  ∃ e st2, put_save pk room request st = (inl e, st2).
Proof.
  intros Hc Hc0 Hbad. unfold put_save, serializer_update.
  unfold bind at 1 2. simpl. rewrite Hc. simpl.
  destruct (Z.eqb_spec c 0) as [? | _]; [done |]. simpl.
  unfold Category_objects_get, bind at 1, objects_get. simpl.
  destruct Hbad as [-> | (category & -> & Hkind)]; [by eexists _, _ |].
  rewrite Hkind. simpl. by eexists _, _.
Qed.

(** [get_each] only reads. *)
Lemma get_each_reads pks : ∀ amenity st r st',
  get_each pks amenity st = (r, st') -> st' = st.
Proof.
  induction pks as [| a pks IH]; intros amenity st r st' Hrun; simpl in Hrun.
  - by inversion Hrun.
  - unfold Amenity_objects_get, bind, objects_get in Hrun.
    destruct (amenities st !! a); [| by inversion Hrun].
    by apply (IH (Some a) st r st').
Qed.

(** A loop that ends has found every amenity. *)
Lemma get_each_ended pks : ∀ amenity st found st',
  get_each pks amenity st = (inr found, st') ->
  Forall (λ a, is_Some (amenities st !! a)) pks.
Proof.
  induction pks as [| a pks IH]; intros amenity st found st' Hrun; [done |].
  simpl in Hrun. unfold Amenity_objects_get, bind, objects_get in Hrun.
  destruct (amenities st !! a) eqn:Ha; [| done].
  constructor; [by eexists | by eapply IH].
Qed.

Lemma put_amenities_raises pk inst request st :
  (∃ n, data_amenities (data request) = AmInt n ∧ n ≠ 0)
  ∨ (∃ pks missing, data_amenities (data request) = AmList pks
       ∧ missing ∈ pks ∧ amenities st !! missing = None) ->
  ∃ e st', put_amenities pk inst request st = (inl e, st').
Proof.
  unfold put_amenities.
  intros [(n & -> & Hn) | (pks & missing & -> & Hin & Hnone)].
  - simpl. destruct (Z.eqb_spec n 0) as [? | _]; [done |]. simpl.
    by eexists _, _.
  - destruct pks as [| a pks]; [by inversion Hin |].
    change (truthy_amenities (AmList (a :: pks))) with true. cbv iota.
    unfold amenities_clear.
    erewrite bind_inr; [| reflexivity]. erewrite bind_inr; [| reflexivity].
    eexists _, _. apply bind_inl.
    by apply (get_each_unresolved missing).
Qed.

(** When its transaction goes through, [RoomDetail.put] has written the row
    of the room and either left the links alone or replaced the links of the
    room by a single one. *)
Lemma put_transaction_written pk room request st returned st' :
  put_transaction pk room request st = (inr returned, st') ->
  let st2 := set_rooms (insert pk (saved_room request room)) st in
  category_accepted st request
  ∧ ((truthy_amenities (data_amenities (data request)) = false
      ∧ returned = None ∧ st' = st2)
     ∨ ∃ pks amenity_pk,
         data_amenities (data request) = AmList pks
         ∧ amenity_pk ∈ pks
         ∧ st' = set_room_amenities
                   (λ links, (clear_links pk links ++ [(pk, amenity_pk)])%list)
                   st2).
Proof.
  intros Hrun st2. unfold put_transaction in Hrun.
  assert (Haccepted : category_accepted st request).
  { unfold category_accepted.
    destruct (data_category (data request)) as [c |] eqn:Hc; [| by left].
    destruct (decide (c = 0)) as [-> | Hc0]; [by left |].
    destruct (categories st !! c) as [category |] eqn:Hrow.
    - destruct (category_kind category) eqn:Hkind.
      + right. by exists c, category.
      + destruct (put_save_refused pk room request st c Hc Hc0) as (e & s & He).
        { right. by exists category. }
        by rewrite (bind_inl _ _ _ _ _ He) in Hrun.
    - destruct (put_save_refused pk room request st c Hc Hc0) as (e & s & He).
      { by left. }
      by rewrite (bind_inl _ _ _ _ _ He) in Hrun. }
  split; [done |].
  rewrite (bind_inr _ _ _ _ _ (put_save_written pk room request st Haccepted))
    in Hrun.
  fold st2 in Hrun. unfold put_amenities in Hrun.
  destruct (data_amenities (data request)) as [| n | [| a pks]] eqn:Ham;
    simpl in Hrun.
  - left. by inversion Hrun.
  - destruct (n =? 0) eqn:Hn; simpl in Hrun.
    + left. simpl. rewrite Hn. by inversion Hrun.
    + unfold amenities_clear, bind, modify, iter, raise in Hrun. done.
  - left. by inversion Hrun.
  - right. exists (a :: pks). unfold amenities_clear in Hrun.
    rewrite (bind_inr _ _ tt st2 (set_room_amenities (clear_links pk) st2))
      in Hrun by done.
    unfold iter in Hrun.
    rewrite (bind_inr _ _ (a :: pks) _ _ eq_refl) in Hrun.
    destruct (get_each (a :: pks) None
                (set_room_amenities (clear_links pk) st2))
      as [[e | found] st3] eqn:Hloop.
    { by rewrite (bind_inl _ _ _ _ _ Hloop) in Hrun. }
    rewrite (bind_inr _ _ _ _ _ Hloop) in Hrun.
    pose proof (get_each_reads _ _ _ _ _ Hloop) as ->.
    assert (Hfound : ∃ amenity_pk, found = Some amenity_pk
                                   ∧ amenity_pk ∈ a :: pks).
    { assert (Hall : Forall (λ x, is_Some
                (amenities (set_room_amenities (clear_links pk) st2) !! x))
                (a :: pks)).
      { by eapply get_each_ended. }
      rewrite (get_each_resolved _ _ _ Hall) in Hloop.
      inversion Hloop as [Hlast]. rewrite last_cons.
      destruct (last pks) as [y |] eqn:Hy; simpl.
      - exists y. split; [done |]. right. by apply last_Some_elem_of.
      - exists a. split; [done | by left]. }
    destruct Hfound as (amenity_pk & -> & Hin).
    exists amenity_pk. split; [done |]. split; [done |].
    unfold amenities_add, RoomDetailSerializer_data in Hrun.
    unfold bind, modify, get_store, ret in Hrun. inversion Hrun.
    unfold set_room_amenities.
    cbn [rooms categories amenities room_amenities bookings next_room_pk].
    unfold add_link. rewrite decide_False; [done |].
    intros Hmem. apply list_elem_of_filter in Hmem as [Hne _]. by apply Hne.
Qed.

Lemma put_transaction_bad pk room request st :
  bad_reference st request ->
  ∃ e st2, put_transaction pk room request st = (inl e, st2).
Proof.
  intros Hbad. unfold put_transaction.
  assert (Hamenities :
    (∃ n, data_amenities (data request) = AmInt n ∧ n ≠ 0)
    ∨ (∃ pks missing, data_amenities (data request) = AmList pks
         ∧ missing ∈ pks ∧ amenities st !! missing = None) ->
    ∃ e st2,
      bind (put_save pk room request)
           (λ updated_room, put_amenities pk updated_room request) st
      = (inl e, st2)).
  { intros Hor.
    destruct (put_save pk room request st) as [[e | inst] st2] eqn:Hsave.
    - eexists _, _. by apply bind_inl.
    - rewrite (bind_inr _ _ _ _ _ Hsave).
      apply put_save_tables in Hsave as [f ->].
      by apply put_amenities_raises. }
  destruct Hbad as [c Hc Hc0 Hnone | c category Hc Hc0 Hrow Hkind
                   | n Hn Hn0 | pks missing Hpks Hin Hnone].
  - destruct (put_save_refused pk room request st c Hc Hc0) as (e & s & He);
      [by left |].
    eexists _, _. by apply bind_inl.
  - destruct (put_save_refused pk room request st c Hc Hc0) as (e & s & He);
      [right; by exists category |].
    eexists _, _. by apply bind_inl.
  - apply Hamenities. left. by exists n.
  - apply Hamenities. right. by exists pks, missing.
Qed.

(** X4.  An update by the owner with a valid body is undone as a whole when it
    names a category that does not exist or is of kind EXPERIENCES, a number
    for [amenities], or an amenity that does not exist: the store is as
    before -- the new field values and the cleared links are gone -- and the
    error is [ParseError("Amenity not Found")] whichever reference was bad. *)
Theorem update_rolls_back_on_bad_reference
    room_errors_partial request pk room st :
  rooms st !! pk = Some room ->
  user request = Some (room_owner room) ->
  room_errors_partial (data request) = [] ->
  bad_reference st request ->
  as_view PUT (RoomDetail_put room_errors_partial) request pk st
  = (inl (ParseError "Amenity not Found"), st).
Proof.
  intros Hroom Hu Hvalid Hbad.
  rewrite (put_owner_valid _ _ _ room) by done.
  destruct (put_transaction_bad pk room request st Hbad) as (e & st2 & Hbody).
  apply bind_inl. by rewrite (try_atomic_inl _ _ _ _ _ Hbody).
Qed.

(** The stores an update can leave behind. *)
Lemma put_store_cases room_errors_partial request pk st :
  let st' :=
    (as_view PUT (RoomDetail_put room_errors_partial) request pk st).2 in
  st' = st
  ∨ ∃ room,
      rooms st !! pk = Some room
      ∧ let st2 := set_rooms (insert pk (saved_room request room)) st in
        st' = st2
        ∨ ∃ amenity_pk,
            st' = set_room_amenities
                    (λ links,
                       (clear_links pk links ++ [(pk, amenity_pk)])%list)
                    st2.
Proof.
  intros st'. subst st'.
  destruct (refused_or_owner st request pk) as [[e He] | (room & Hroom & Hu)].
  { left. by rewrite (put_refused _ _ _ _ _ He). }
  destruct (room_errors_partial (data request)) as [| err errs] eqn:Hvalid.
  2: { left. rewrite (put_invalid_body _ _ _ room); [done .. |].
       by rewrite Hvalid. }
  rewrite (put_owner_valid _ _ _ room) by done.
  unfold bind, try_except, atomic.
  destruct (put_transaction pk room request st) as [[e | returned] st1]
    eqn:Hbody; [by left |].
  right. exists room. split; [done |].
  apply put_transaction_written in Hbody
    as [_ [(_ & -> & ->) | (pks & amenity_pk & _ & _ & ->)]].
  - by left.
  - right. exists amenity_pk. by destruct returned.
Qed.

Lemma links_of_other_room pk pk' (links : list (Z * Z)) :
  pk' ≠ pk ->
  filter (λ row : Z * Z, row.1 = pk') (clear_links pk links)
  = filter (λ row : Z * Z, row.1 = pk') links.
Proof.
  intros Hne. unfold clear_links.
  induction links as [| [r a] links IH]; [done |].
  rewrite (filter_cons (λ row : Z * Z, row.1 ≠ pk)).
  rewrite (filter_cons (λ row : Z * Z, row.1 = pk') (r, a)).
  simpl. destruct (decide (r ≠ pk)) as [Hr | Hr].
  - rewrite filter_cons. simpl. rewrite IH. done.
  - rewrite IH. rewrite decide_False; [done |].
    intros ->. apply Hr. done.
Qed.

(** X5.  Whatever the request and however it ends, [RoomDetail.put] never
    changes who owns a room and never adds or removes a room; rooms other
    than the one addressed keep their row and their amenities, and the
    Category, Amenity and Booking tables are not written. *)
Theorem update_keeps_owner_and_other_rooms room_errors_partial request pk st :
  let st' :=
    (as_view PUT (RoomDetail_put room_errors_partial) request pk st).2 in
  (∀ pk', room_owner <$> rooms st' !! pk' = room_owner <$> rooms st !! pk')
  ∧ (∀ pk', pk' ≠ pk ->
       rooms st' !! pk' = rooms st !! pk'
       ∧ amenities_all pk' st' = amenities_all pk' st)
  ∧ categories st' = categories st
  ∧ amenities st' = amenities st
  ∧ bookings st' = bookings st.
Proof.
  intros st'.
  destruct (put_store_cases room_errors_partial request pk st)
    as [Hsame | (room & Hroom & Hcases)]; fold st' in Hsame || fold st' in Hcases.
  { by rewrite Hsame. }
  assert (Hrows : ∀ pk',
    room_owner <$> <[pk:=saved_room request room]> (rooms st) !! pk'
    = room_owner <$> rooms st !! pk').
  { intros pk'. destruct (decide (pk = pk')) as [<- | Hne].
    - by rewrite lookup_insert_eq, Hroom.
    - by rewrite lookup_insert_ne. }
  simpl in Hcases. destruct Hcases as [-> | [amenity_pk ->]]; simpl.
  - split; [done |]. split; [| done].
    intros pk' Hne. by rewrite lookup_insert_ne.
  - split; [done |]. split; [| done].
    intros pk' Hne. split; [by rewrite lookup_insert_ne |].
    unfold amenities_all. simpl.
    rewrite filter_app, links_of_other_room by done.
    rewrite filter_cons_False, filter_nil by (simpl; congruence).
    by rewrite app_nil_r.
Qed.

Lemma saved_room_again request room :
  saved_room request (saved_room request room) = saved_room request room.
Proof.
  unfold saved_room, set_attrs. simpl.
  destruct (data_name (data request)), (data_price (data request)),
    (truthy_pk (data_category (data request))),
    (data_category (data request)); reflexivity.
Qed.

Lemma category_accepted_tables st st' request :
  categories st' = categories st ->
  category_accepted st request -> category_accepted st' request.
Proof.
  intros Hsame [Hfalsy | (c & category & ? & ? & ? & ?)]; [by left |].
  right. exists c, category. by rewrite Hsame.
Qed.

Lemma put_run_skipped room_errors_partial request pk room st :
  rooms st !! pk = Some room ->
  user request = Some (room_owner room) ->
  room_errors_partial (data request) = [] ->
  category_accepted st request ->
  truthy_amenities (data_amenities (data request)) = false ->
  as_view PUT (RoomDetail_put room_errors_partial) request pk st
  = (inr (mkResponse HTTP_200_OK (ErrorsBody [])),
     set_rooms (insert pk (saved_room request room)) st).
Proof.
  intros Hroom Hu Hvalid Hcat Hfalsy.
  rewrite (put_owner_valid _ _ _ room) by done.
  assert (Hbody : put_transaction pk room request st
                  = (inr None,
                     set_rooms (insert pk (saved_room request room)) st)).
  { unfold put_transaction.
    rewrite (bind_inr _ _ _ _ _ (put_save_written pk room request st Hcat)).
    by apply put_amenities_skipped. }
  by rewrite (bind_inr _ _ _ _ _ (try_atomic_inr _ _ _ _ _ Hbody)).
Qed.

Lemma put_run_last room_errors_partial request pk room st pks amenity_pk :
  rooms st !! pk = Some room ->
  user request = Some (room_owner room) ->
  room_errors_partial (data request) = [] ->
  category_accepted st request ->
  data_amenities (data request) = AmList pks ->
  last pks = Some amenity_pk ->
  Forall (λ a, is_Some (amenities st !! a)) pks ->
  let saved := saved_room request room in
  as_view PUT (RoomDetail_put room_errors_partial) request pk st
  = (inr (mkResponse HTTP_200_OK
            (RoomDetailBody
               (mkRoomData pk (room_name saved) (room_price saved)
                  (room_owner saved) (room_category saved) [amenity_pk]))),
     set_room_amenities
       (λ links, (clear_links pk links ++ [(pk, amenity_pk)])%list)
       (set_rooms (insert pk saved) st)).
Proof.
  intros Hroom Hu Hvalid Hcat Hpks Hlast Hall saved.
  rewrite (put_owner_valid _ _ _ room) by done.
  destruct (put_amenities_last pk saved request
              (set_rooms (insert pk saved) st) pks amenity_pk Hpks Hlast Hall)
    as [Hattach _].
  assert (Hbody : put_transaction pk room request st
                  = put_amenities pk saved request
                      (set_rooms (insert pk saved) st)).
  { unfold put_transaction.
    by rewrite (bind_inr _ _ _ _ _ (put_save_written pk room request st Hcat)). }
  rewrite Hattach in Hbody.
  by rewrite (bind_inr _ _ _ _ _ (try_atomic_inr _ _ _ _ _ Hbody)).
Qed.

Lemma replace_links_again pk amenity_pk (links : list (Z * Z)) :
  (clear_links pk (clear_links pk links ++ [(pk, amenity_pk)])
   ++ [(pk, amenity_pk)])%list
  = (clear_links pk links ++ [(pk, amenity_pk)])%list.
Proof.
  f_equal. unfold clear_links. rewrite filter_app.
  rewrite filter_cons_False, filter_nil by (simpl; tauto).
  rewrite app_nil_r. rewrite list_filter_filter.
  apply list_filter_iff. tauto.
Qed.

(** X6.  An update that goes through can be sent again without effect: the
    second run answers as the first did and leaves the store the first run
    left. *)
Theorem update_twice_same_as_once
    room_errors_partial request pk room st :
  rooms st !! pk = Some room ->
  user request = Some (room_owner room) ->
  room_errors_partial (data request) = [] ->
  category_accepted st request ->
  truthy_amenities (data_amenities (data request)) = false
  ∨ (∃ pks, data_amenities (data request) = AmList pks ∧ pks ≠ []
       ∧ Forall (λ a, is_Some (amenities st !! a)) pks) ->
  let once :=
    as_view PUT (RoomDetail_put room_errors_partial) request pk st in
  (∃ response, once.1 = inr response ∧ status response = 200)
  ∧ as_view PUT (RoomDetail_put room_errors_partial) request pk once.2 = once.
Proof.
  intros Hroom Hu Hvalid Hcat Hamenities once. subst once.
  set (saved := saved_room request room).
  assert (Hsaved : ∀ f,
            rooms (set_room_amenities f (set_rooms (insert pk saved) st)) !! pk
            = Some saved).
  { intros f. simpl. apply lookup_insert_eq. }
  assert (Hcat' : ∀ f, category_accepted
            (set_room_amenities f (set_rooms (insert pk saved) st)) request).
  { intros f. by apply (category_accepted_tables st). }
  destruct Hamenities as [Hfalsy | (pks & Hpks & Hne & Hall)].
  - rewrite (put_run_skipped _ _ _ room) by done. fold saved.
    split; [by eexists |]. simpl.
    rewrite (put_run_skipped _ _ _ saved)
      by (done || apply lookup_insert_eq).
    unfold saved. rewrite saved_room_again. fold saved.
    by rewrite set_rooms_insert_twice.
  - destruct (last pks) as [amenity_pk |] eqn:Hlast;
      [| by apply last_None in Hlast].
    rewrite (put_run_last _ _ _ room st pks amenity_pk) by done. fold saved.
    split; [by eexists |]. simpl.
    rewrite (put_run_last _ _ _ saved _ pks amenity_pk)
      by (done || apply lookup_insert_eq).
    unfold saved. rewrite saved_room_again. fold saved. f_equal.
    unfold set_room_amenities, set_rooms. simpl. f_equal.
    + apply insert_insert_eq.
    + apply replace_links_again.
Qed.

(** ** Room deletion *)

(** X7.  A delete by the owner answers 204; the room and its amenity links
    are gone and reading the room now answers [NotFound]; the other rooms
    keep their rows and their amenities, and no Amenity or Category row is
    deleted with the room. *)
Theorem delete_by_owner_removes_room request pk room st :
  rooms st !! pk = Some room ->
  user request = Some (room_owner room) ->
  ∃ st',
    as_view DELETE RoomDetail_delete request pk st
    = (inr (mkResponse HTTP_204_NO_CONTENT EmptyBody), st')
    ∧ rooms st' !! pk = None
    ∧ amenities_all pk st' = []
    ∧ (∀ pk', pk' ≠ pk ->
         rooms st' !! pk' = rooms st !! pk'
         ∧ amenities_all pk' st' = amenities_all pk' st)
    ∧ amenities st' = amenities st
    ∧ categories st' = categories st
    ∧ ∀ reader,
        as_view GET RoomDetail_get reader pk st' = (inl NotFound, st').
Proof.
  intros Hroom Hu. eexists. split.
  { unfold as_view, IsAuthenticatedOrReadOnly, is_authenticated.
    rewrite Hu. simpl. unfold RoomDetail_delete.
    rewrite (bind_inr _ _ room st st) by by apply get_object_found.
    rewrite (proj2 (owner_differs_false room request) Hu).
    unfold Room_delete. reflexivity. }
  simpl. split; [apply lookup_delete_eq |].
  split.
  { unfold amenities_all. simpl. by rewrite clear_links_no_links. }
  split.
  { intros pk' Hne. split; [by apply lookup_delete_ne |].
    unfold amenities_all. simpl. by rewrite links_of_other_room. }
  split; [done |]. split; [done |].
  intros reader. unfold as_view. simpl. unfold RoomDetail_get.
  apply bind_inl. apply get_object_missing. simpl. apply lookup_delete_eq.
Qed.

(** ** Booking a room *)

Section BookingProperties.

Context {Body_t : Type}.
Variable booking_validate : Store -> Body_t -> list string + (Z * Z).

Abbreviation bookings_post new_pk body :=
  (as_view_reply POST (RoomBookings_post Body_t booking_validate new_pk body)).

(** X10.  A valid booking request by an authenticated user for a room that
    exists adds one row at the end of the Booking table: a booking of that
    room, for that user, of kind ROOM, with the validated dates; nothing else
    is written.  Read back at any date, the list of upcoming bookings of the
    room is the list of before, followed by the new booking exactly when its
    check-in lies after that date. *)
Theorem booking_post_then_listed
    new_pk body request pk room st u first_day last_day :
  rooms st !! pk = Some room ->
  user request = Some u ->
  booking_validate st body = inr (first_day, last_day) ->
  let booking :=
    mkBooking (Some pk) u BookingKindChoices.ROOM first_day last_day in
  ∃ st',
    bookings_post new_pk body request pk st
    = (inr (mkReply HTTP_200_OK (BookingPayload new_pk booking)), st')
    ∧ st' = set_bookings (λ table, (table ++ [(new_pk, booking)])%list) st
    ∧ ∀ now reader,
        as_view GET (RoomBookings_get now) reader pk st'
        = (inr (mkResponse HTTP_200_OK
                  (BookingListBody
                     (filter (upcoming pk now) (bookings st)
                      ++ if decide (now < first_day)
                         then [(new_pk, booking)] else [])%list)),
           st').
Proof.
  intros Hroom Hu Hvalid booking. eexists. split; [| split; [reflexivity |]].
  - unfold as_view_reply, IsAuthenticatedOrReadOnly, is_authenticated.
    rewrite Hu. simpl. unfold RoomBookings_post.
    erewrite bind_inr; [| unfold RoomBookings_get_object, try_except,
                            Room_objects_get;
                          by rewrite (objects_get_Some rooms _ _ _ _ Hroom)].
    unfold bind at 1, get_store. rewrite Hvalid, Hu. reflexivity.
  - intros now reader.
    rewrite (bookings_get_found now reader pk room) by done.
    simpl. rewrite filter_app. do 3 f_equal.
    rewrite filter_cons, filter_nil. unfold upcoming. simpl.
    destruct (decide (now < first_day)).
    + by rewrite decide_True.
    + rewrite decide_False; [done | tauto].
Qed.

(** X11.  A booking request that cannot be served writes nothing.  A room
    that does not exist is answered [NotFound] before the body is looked at;
    for a room that exists an invalid body is answered with the serializer's
    errors under status 200. *)
Theorem booking_post_refused new_pk body request pk st :
  is_authenticated request = true ->
  (rooms st !! pk = None ->
   bookings_post new_pk body request pk st = (inl NotFound, st))
  ∧ (∀ room errors,
       rooms st !! pk = Some room ->
       booking_validate st body = inl errors ->
       bookings_post new_pk body request pk st
       = (inr (mkReply HTTP_200_OK (ErrorsPayload errors)), st)).
Proof.
  intros Hauth.
  unfold as_view_reply, IsAuthenticatedOrReadOnly. rewrite Hauth. simpl.
  unfold RoomBookings_post, RoomBookings_get_object, try_except,
    Room_objects_get.
  split.
  - intros Hnone. apply bind_inl.
    by rewrite (objects_get_None rooms _ _ _ Hnone).
  - intros room errors Hroom Hinvalid.
    erewrite bind_inr; [| by rewrite (objects_get_Some rooms _ _ _ _ Hroom)].
    unfold bind, get_store. by rewrite Hinvalid.
Qed.

End BookingProperties.

(** ** Amenities *)

Lemma amenity_get_object_found pk amenity st :
  amenities st !! pk = Some amenity ->
  AmenityDetail_get_object pk st = (inr amenity, st).
Proof.
  intros Hrow. unfold AmenityDetail_get_object, try_except, Amenity_objects_get.
  by rewrite (objects_get_Some amenities AmenityModel pk amenity st Hrow).
Qed.

Lemma amenity_get_object_missing pk st :
  amenities st !! pk = None ->
  AmenityDetail_get_object pk st = (inl NotFound, st).
Proof.
  intros Hrow. unfold AmenityDetail_get_object, try_except, Amenity_objects_get.
  by rewrite (objects_get_None amenities AmenityModel pk st Hrow).
Qed.

(** The amenities of a room once the links to [pk] are deleted. *)
Lemma links_without_amenity pk room_pk (links : list (Z * Z)) :
  (filter (λ row : Z * Z, row.1 = room_pk)
     (filter (λ row : Z * Z, row.2 ≠ pk) links)).*2
  = filter (λ a, a ≠ pk) (filter (λ row : Z * Z, row.1 = room_pk) links).*2.
Proof.
  induction links as [| [r a] links IH]; [done |].
  destruct (decide (a = pk)) as [Ha | Ha];
    destruct (decide (r = room_pk)) as [Hr | Hr].
  - rewrite (filter_cons_False (λ row : Z * Z, row.2 ≠ pk)) by (simpl; tauto).
    rewrite (filter_cons_True (λ row : Z * Z, row.1 = room_pk) (r, a)) by done.
    rewrite fmap_cons. simpl.
    rewrite (filter_cons_False (λ x, x ≠ pk)) by tauto. done.
  - rewrite (filter_cons_False (λ row : Z * Z, row.2 ≠ pk)) by (simpl; tauto).
    by rewrite (filter_cons_False (λ row : Z * Z, row.1 = room_pk) (r, a)).
  - rewrite (filter_cons_True (λ row : Z * Z, row.2 ≠ pk)) by done.
    rewrite !(filter_cons_True (λ row : Z * Z, row.1 = room_pk) (r, a)) by done.
    rewrite !fmap_cons. simpl.
    rewrite (filter_cons_True (λ x, x ≠ pk)) by done. by rewrite IH.
  - rewrite (filter_cons_True (λ row : Z * Z, row.2 ≠ pk)) by done.
    by rewrite !(filter_cons_False (λ row : Z * Z, row.1 = room_pk) (r, a)).
Qed.

Section AmenityProperties.

Context {Body_t : Type}.
Variable amenity_validate : Store -> Body_t -> list string + Amenity.
Variable amenity_validate_partial :
  Store -> Body_t -> list string + (option string * option string).

(** X12.  An amenity that does not exist can be neither read, updated nor
    deleted: each of the three handlers answers [NotFound], whatever the body
    and whoever asks, and writes nothing. *)
Theorem amenity_detail_missing body request pk st :
  amenities st !! pk = None ->
  AmenityDetail_get request pk st = (inl NotFound, st)
  ∧ AmenityDetail_put Body_t amenity_validate_partial body request pk st
    = (inl NotFound, st)
  ∧ AmenityDetail_delete request pk st = (inl NotFound, st).
Proof.
  intros Hnone. pose proof (amenity_get_object_missing pk st Hnone) as Hget.
  unfold AmenityDetail_get, AmenityDetail_put, AmenityDetail_delete.
  by rewrite !(bind_inl _ _ _ _ _ Hget).
Qed.

(** X13.  A partial update of an amenity changes the fields that the
    validated data holds and keeps the others; only the row of that amenity
    is written, and reading the amenity afterwards answers with the body the
    update answered with. *)
Theorem amenity_put_then_get body request pk amenity st name description :
  amenities st !! pk = Some amenity ->
  amenity_validate_partial st body = inr (name, description) ->
  let updated_amenity :=
    mkAmenity (default (amenity_name amenity) name)
              (default (amenity_description amenity) description) in
  let reply := mkReply HTTP_200_OK (AmenityPayload pk updated_amenity) in
  ∃ st',
    AmenityDetail_put Body_t amenity_validate_partial body request pk st
    = (inr reply, st')
    ∧ st' = set_amenities (insert pk updated_amenity) st
    ∧ (∀ pk', pk' ≠ pk -> amenities st' !! pk' = amenities st !! pk')
    ∧ ∀ reader, AmenityDetail_get reader pk st' = (inr reply, st').
Proof.
  intros Hrow Hvalid updated_amenity reply. eexists.
  split; [| split; [reflexivity |]].
  - unfold AmenityDetail_put.
    rewrite (bind_inr _ _ _ _ _ (amenity_get_object_found pk amenity st Hrow)).
    unfold bind at 1, get_store. rewrite Hvalid. reflexivity.
  - split.
    + intros pk' Hne. simpl. by apply lookup_insert_ne.
    + intros reader. unfold AmenityDetail_get.
      erewrite bind_inr; [reflexivity |].
      apply amenity_get_object_found. simpl. apply lookup_insert_eq.
Qed.


(** X15.  Deleting an amenity answers 204 and removes it from every room:
    each room's amenities are those of before without the deleted one.  The
    amenity can no longer be read, the other amenities and all rooms are
    untouched, and if every link named a stored amenity before, every link
    still does. *)
Theorem amenity_delete_unlinks_everywhere request pk amenity st :
  amenities st !! pk = Some amenity ->
  ∃ st',
    AmenityDetail_delete request pk st
    = (inr (mkReply HTTP_204_NO_CONTENT NoPayload), st')
    ∧ amenities st' !! pk = None
    ∧ (∀ pk', pk' ≠ pk -> amenities st' !! pk' = amenities st !! pk')
    ∧ rooms st' = rooms st
    ∧ (∀ room_pk,
         amenities_all room_pk st'
         = filter (λ a, a ≠ pk) (amenities_all room_pk st))
    ∧ ((∀ r a, (r, a) ∈ room_amenities st -> is_Some (amenities st !! a)) ->
       ∀ r a, (r, a) ∈ room_amenities st' -> is_Some (amenities st' !! a))
    ∧ ∀ reader, AmenityDetail_get reader pk st' = (inl NotFound, st').
Proof.
  intros Hrow. eexists. split.
  { unfold AmenityDetail_delete.
    rewrite (bind_inr _ _ _ _ _ (amenity_get_object_found pk amenity st Hrow)).
    unfold Amenity_delete. reflexivity. }
  simpl. split; [apply lookup_delete_eq |].
  split; [intros pk' Hne; by apply lookup_delete_ne |].
  split; [done |].
  split; [intros room_pk; apply links_without_amenity |].
  split.
  - intros Hlinked r a Hin. apply list_elem_of_filter in Hin as [Hne Hin].
    simpl in Hne. rewrite lookup_delete_ne by done. by apply (Hlinked r).
  - intros reader. unfold AmenityDetail_get. apply bind_inl.
    apply amenity_get_object_missing. simpl. apply lookup_delete_eq.
Qed.

(** X16.  A valid create stores the validated amenity under the new key and
    answers with it; reading that key answers the same, the amenity list is
    the list of before with the new amenity added, and no other row of the
    store changes. *)
Theorem amenity_post_then_get new_pk body request amenity st :
  amenities st !! new_pk = None ->
  amenity_validate st body = inr amenity ->
  let reply := mkReply HTTP_200_OK (AmenityPayload new_pk amenity) in
  ∃ st' listed,
    Amenities_post Body_t amenity_validate new_pk body request st
    = (inr reply, st')
    ∧ st' = set_amenities (insert new_pk amenity) st
    ∧ (∀ reader, AmenityDetail_get reader new_pk st' = (inr reply, st'))
    ∧ (∀ reader,
         Amenities_get reader st'
         = (inr (mkReply HTTP_200_OK (AmenityListPayload listed)), st'))
    ∧ listed ≡ₚ (new_pk, amenity) :: map_to_list (amenities st).
Proof.
  intros Hfresh Hvalid reply. eexists _, _. split; [| split; [reflexivity |]].
  - unfold Amenities_post. unfold bind at 1, get_store. rewrite Hvalid.
    reflexivity.
  - split; [| split].
    + intros reader. unfold AmenityDetail_get.
      erewrite bind_inr; [reflexivity |].
      apply amenity_get_object_found. simpl. apply lookup_insert_eq.
    + intros reader. reflexivity.
    + simpl. by apply map_to_list_insert.
Qed.

End AmenityProperties.

(** ** Reviews and photos *)

Lemma lift_inr {A} (m : M A) a site :
  m (store site) = (inr a, store site) -> lift m site = (inr a, site).
Proof. intros Hm. unfold lift. rewrite Hm. by destruct site. Qed.

Lemma lift_inl {A} (m : M A) e site :
  m (store site) = (inl e, store site) -> lift m site = (@inl _ A e, site).
Proof. intros Hm. unfold lift. rewrite Hm. by destruct site. Qed.

Lemma bind_site_inr {A B} (m : MS A) (k : A -> MS B) a site site' :
  m site = (inr a, site') -> bind_site m k site = k a site'.
Proof. intros Hm. unfold bind_site. by rewrite Hm. Qed.

Lemma bind_site_inl {A B} (m : MS A) (k : A -> MS B) e site site' :
  m site = (inl e, site') -> bind_site m k site = (inl e, site').
Proof. intros Hm. unfold bind_site. by rewrite Hm. Qed.

Lemma reviews_get_object_found pk room site :
  rooms (store site) !! pk = Some room ->
  lift (RoomReviews_get_object pk) site = (inr room, site).
Proof. intros Hroom. apply lift_inr. by apply get_object_found. Qed.

Lemma reviews_get_object_missing pk site :
  rooms (store site) !! pk = None ->
  lift (RoomReviews_get_object pk) site = (@inl _ Room NotFound, site).
Proof. intros Hroom. apply lift_inl. by apply get_object_missing. Qed.

Lemma queryset_slice_page {A} (page page_size : Z) (rows : list A) :
  1 ≤ page -> 0 ≤ page_size ->
  queryset_slice ((page - 1) * page_size)
                 ((page - 1) * page_size + page_size) rows
  = inr (take (Z.to_nat page_size)
           (drop (Z.to_nat page_size * Z.to_nat (page - 1)) rows)).
Proof.
  intros Hpage Hsize. unfold queryset_slice.
  rewrite decide_False by nia. do 3 f_equal; nia.
Qed.

Lemma reviews_get_page python_int request pk room site :
  rooms (store site) !! pk = Some room ->
  1 ≤ requested_page python_int request ->
  RoomReviews_get python_int request pk site
  = (inr (mkReply HTTP_200_OK
            (ReviewListPayload
               (take 3 (drop (3 * Z.to_nat
                                  (requested_page python_int request - 1))
                          (room_reviews pk site))))),
     site).
Proof.
  intros Hroom Hpage. unfold RoomReviews_get.
  rewrite (bind_site_inr _ _ _ _ _ (reviews_get_object_found _ _ _ Hroom)).
  unfold bind_site, get_site.
  by rewrite queryset_slice_page by (done || lia).
Qed.

Section SiteProperties.

Context {Body_t : Type}.
Variable python_int : string -> option Z.

(** X17.  The reviews of a room come three to a page, in table order: page
    [p >= 1] holds the reviews at positions [3(p-1)] to [3p-1] of the room's
    reviews.  The page is the number in the query parameter [page], and 1
    when the parameter is absent or is not a number.  Reading is open to
    anyone and writes nothing. *)
Theorem reviews_page request pk room site :
  rooms (store site) !! pk = Some room ->
  let page :=
    match query_params request !! "page" with
    | Some raw => default 1 (python_int raw)
    | None => 1
    end in
  1 ≤ page ->
  ∃ page_reviews,
    as_view_site GET (RoomReviews_get python_int) request pk site
    = (inr (mkReply HTTP_200_OK (ReviewListPayload page_reviews)), site)
    ∧ page_reviews
      = take 3 (drop (3 * Z.to_nat (page - 1)) (room_reviews pk site))
    ∧ (length page_reviews ≤ 3)%nat
    ∧ ∀ row, row ∈ page_reviews -> review_room row.2 = pk.
Proof.
  intros Hroom page Hpage.
  assert (Hsame : requested_page python_int request = page).
  { unfold requested_page, page.
    destruct (query_params request !! "page") as [raw |]; [| done].
    by destruct (python_int raw). }
  eexists. split.
  { unfold as_view_site. simpl. rewrite (reviews_get_page _ _ _ room) by
      (done || by rewrite Hsame).
    by rewrite Hsame. }
  split; [done |]. split.
  - rewrite length_take. lia.
  - intros row Hin. apply subseteq_take, subseteq_drop in Hin.
    by apply list_elem_of_filter in Hin as [? _].
Qed.

(** X18.  The pages of a room's reviews, read one after the other from page 1
    on, give the reviews of the room in table order with none left out and
    none repeated: the first [n] pages together are the first [3n]
    reviews. *)
Theorem reviews_pages_partition (raw : Z -> string) pk room site (n : nat) :
  (∀ page, 1 ≤ page ≤ Z.of_nat n -> python_int (raw page) = Some page) ->
  rooms (store site) !! pk = Some room ->
  concat
    ((λ i : nat,
        listed_reviews
          (as_view_site GET (RoomReviews_get python_int)
             (mkRequest None no_data {[ "page" := raw (Z.of_nat i + 1) ]})
             pk site).1)
     <$> seq 0 n)
  = take (3 * n) (room_reviews pk site).
Proof.
  intros Hraw Hroom. induction n as [| n IH]; [done |].
  rewrite seq_S, fmap_app, concat_app, IH
    by (intros page Hpage; apply Hraw; lia).
  simpl.
  rewrite app_nil_r. unfold as_view_site. simpl.
  assert (Hpage : requested_page python_int
            (mkRequest None no_data {[ "page" := raw (Z.of_nat n + 1) ]})
          = Z.of_nat n + 1).
  { unfold requested_page. simpl. rewrite lookup_singleton_eq.
    by rewrite Hraw by lia. }
  rewrite (reviews_get_page _ _ _ room) by (done || (rewrite Hpage; lia)).
  rewrite Hpage. simpl.
  replace (Z.to_nat (Z.of_nat n + 1 - 1)) with n by lia.
  rewrite take_take_drop. f_equal. lia.
Qed.

(** X19.  What [GET] on the reviews of a room refuses: a room that does not
    exist is answered [NotFound], whatever the page; for a room that exists a
    page number of 0 or less asks the ORM for a negative slice and ends in
    an exception that nothing catches, a server error. *)
Theorem reviews_page_refused request pk site :
  (rooms (store site) !! pk = None ->
   as_view_site GET (RoomReviews_get python_int) request pk site
   = (inl NotFound, site))
  ∧ (∀ room,
       rooms (store site) !! pk = Some room ->
       requested_page python_int request ≤ 0 ->
       ∃ e,
         as_view_site GET (RoomReviews_get python_int) request pk site
         = (inl e, site)
         ∧ http_status (inl e) = 500).
Proof.
  unfold as_view_site. simpl. unfold RoomReviews_get. split.
  - intros Hnone. apply bind_site_inl. by apply reviews_get_object_missing.
  - intros room Hroom Hpage. exists ValueError.
    rewrite (bind_site_inr _ _ _ _ _ (reviews_get_object_found _ _ _ Hroom)).
    unfold bind_site, get_site, queryset_slice.
    rewrite decide_True by lia. done.
Qed.


End SiteProperties.

Section WriteProperties.

Context {Body_t : Type}.
Variable review_validate : Site -> Body_t -> list string + string.
Variable photo_validate : Site -> Body_t -> list string + string.

Abbreviation reviews_post new_pk body :=
  (as_view_site POST (RoomReviews_post Body_t review_validate new_pk body)).

Abbreviation photos_post new_pk body :=
  (as_view_site POST (RoomPhotos_post Body_t photo_validate new_pk body)).

(** X20.  Posting a review as an authenticated user: a valid body for a room
    that exists stores one review, of that room and that user, at the end of
    the table, and it becomes the last of the room's reviews; a valid body
    for a room that does not exist is answered [NotFound]; an invalid body
    makes the handler end without a response, whether the room exists or
    not.  In the last two cases nothing is written. *)
Theorem review_post_cases new_pk body request pk site u :
  user request = Some u ->
  (∀ errors, review_validate site body = inl errors ->
     reviews_post new_pk body request pk site = (inr None, site))
  ∧ (∀ payload, review_validate site body = inr payload ->
       rooms (store site) !! pk = None ->
       reviews_post new_pk body request pk site = (inl NotFound, site))
  ∧ (∀ payload room, review_validate site body = inr payload ->
       rooms (store site) !! pk = Some room ->
       let review := mkReview u pk payload in
       let site' := mkSite (store site)
                           (reviews site ++ [(new_pk, review)])%list
                           (photos site) in
       reviews_post new_pk body request pk site
       = (inr (Some (mkReply HTTP_200_OK (ReviewPayload new_pk review))),
          site')
       ∧ room_reviews pk site'
         = (room_reviews pk site ++ [(new_pk, review)])%list).
Proof.
  intros Hu.
  unfold as_view_site, IsAuthenticatedOrReadOnly, is_authenticated.
  rewrite Hu. simpl. unfold RoomReviews_post.
  split; [| split].
  - intros errors Hinvalid. unfold bind_site at 1, get_site.
    by rewrite Hinvalid.
  - intros payload Hvalid Hnone. unfold bind_site at 1, get_site.
    rewrite Hvalid. apply bind_site_inl. by apply reviews_get_object_missing.
  - intros payload room Hvalid Hroom. split.
    + unfold bind_site at 1, get_site. rewrite Hvalid.
      rewrite (bind_site_inr _ _ _ _ _ (reviews_get_object_found _ _ _ Hroom)).
      by rewrite Hu.
    + unfold room_reviews. simpl. rewrite filter_app.
      by rewrite filter_cons_True, filter_nil.
Qed.

(** X21.  Only the owner of a room adds photos to it.  For a room that does
    not exist the answer is [NotFound]; for any requester other than the
    owner it is [PermissionDenied], valid body or not; the owner's invalid
    body is answered with the serializer's errors under status 200; none of
    these writes.  The owner's valid body stores one photo of that room.  In
    no case are the store or the reviews touched. *)
Theorem photo_post_cases new_pk body request pk site :
  is_authenticated request = true ->
  let result := photos_post new_pk body request pk site in
  (rooms (store site) !! pk = None -> result = (inl NotFound, site))
  ∧ (∀ room, rooms (store site) !! pk = Some room ->
       user request ≠ Some (room_owner room) ->
       result = (inl PermissionDenied, site))
  ∧ (∀ room errors, rooms (store site) !! pk = Some room ->
       user request = Some (room_owner room) ->
       photo_validate site body = inl errors ->
       result = (inr (mkReply HTTP_200_OK (ErrorsPayload errors)), site))
  ∧ (∀ room file, rooms (store site) !! pk = Some room ->
       user request = Some (room_owner room) ->
       photo_validate site body = inr file ->
       result
       = (inr (mkReply HTTP_200_OK (PhotoPayload new_pk (mkPhoto pk file))),
          mkSite (store site) (reviews site)
                 (photos site ++ [(new_pk, mkPhoto pk file)])%list))
  ∧ store result.2 = store site
  ∧ reviews result.2 = reviews site.
Proof.
  intros Hauth result. subst result.
  unfold as_view_site, IsAuthenticatedOrReadOnly. rewrite Hauth. simpl.
  unfold RoomPhotos_post.
  assert (Hfound : ∀ room, rooms (store site) !! pk = Some room ->
            lift (RoomPhotos_get_object pk) site = (inr room, site)).
  { intros room Hroom. apply lift_inr. by apply get_object_found. }
  split; [| split; [| split; [| split]]].
  - intros Hnone. apply bind_site_inl. apply lift_inl.
    by apply get_object_missing.
  - intros room Hroom Hstranger.
    rewrite (bind_site_inr _ _ _ _ _ (Hfound room Hroom)).
    destruct (owner_differs room request) eqn:Hdiffers; [done |].
    by apply owner_differs_false in Hdiffers.
  - intros room errors Hroom Hu Hinvalid.
    rewrite (bind_site_inr _ _ _ _ _ (Hfound room Hroom)).
    rewrite (proj2 (owner_differs_false room request) Hu).
    unfold bind_site, get_site. by rewrite Hinvalid.
  - intros room file Hroom Hu Hvalid.
    rewrite (bind_site_inr _ _ _ _ _ (Hfound room Hroom)).
    rewrite (proj2 (owner_differs_false room request) Hu).
    unfold bind_site, get_site. by rewrite Hvalid.
  - destruct (rooms (store site) !! pk) as [room |] eqn:Hroom.
    + rewrite (bind_site_inr _ _ _ _ _ (Hfound room eq_refl)).
      destruct (owner_differs room request); [done |].
      unfold bind_site, get_site.
      by destruct (photo_validate site body).
    + erewrite bind_site_inl; [done |]. apply lift_inl.
      by apply get_object_missing.
Qed.

End WriteProperties.

(** ** The further properties at work on the sample data *)


Lemma create_without_usable_category_fails_witness :
  let request :=
    request_of (Some 7) (mkData (Some "flat") (Some 50) (Some 9) AmNone) in
  categories sample_store !! 9 = None
  ∧ as_view POST (Rooms_post sample_errors) request tt sample_store
    = (inl (ParseError "Category not found"), sample_store).
Proof.
  intros request. split; [reflexivity |].
  apply (create_without_usable_category_fails sample_errors request
           sample_store eq_refl).
  right. by exists 9.
Defined.

Lemma update_rolls_back_on_bad_reference_witness :
  let request :=
    request_of (Some 7) (mkData (Some "suite") None (Some 2) (AmList [3])) in
  as_view PUT (RoomDetail_put sample_errors_partial) request 1 sample_store
  = (inl (ParseError "Amenity not Found"), sample_store).
Proof.
  intros request.
  apply (update_rolls_back_on_bad_reference sample_errors_partial request 1
           (mkRoom "loft" 100 7 (Some 1)) sample_store);
    try reflexivity.
  apply (bad_category_kind sample_store request 2
           (mkCategory "tours" CategoryKindChoices.EXPERIENCES));
    reflexivity || lia.
Defined.

Lemma update_twice_same_as_once_witness :
  let once :=
    as_view PUT (RoomDetail_put sample_errors_partial) replace_request 1
            sample_store in
  (∃ response, once.1 = inr response ∧ status response = 200)
  ∧ as_view PUT (RoomDetail_put sample_errors_partial) replace_request 1 once.2
    = once.
Proof.
  apply (update_twice_same_as_once sample_errors_partial replace_request 1
           (mkRoom "loft" 100 7 (Some 1)) sample_store);
    try reflexivity.
  - by left.
  - right. exists [2; 3]. split; [reflexivity |]. split; [done |].
    repeat (constructor; [by eexists |]). constructor.
Defined.

Lemma delete_by_owner_removes_room_witness :
  ∃ st',
    as_view DELETE RoomDetail_delete (request_of (Some 7) no_data) 1
            sample_store
    = (inr (mkResponse HTTP_204_NO_CONTENT EmptyBody), st')
    ∧ rooms st' !! 1 = None
    ∧ amenities_all 1 st' = [].
Proof.
  destruct (delete_by_owner_removes_room (request_of (Some 7) no_data) 1
              (mkRoom "loft" 100 7 (Some 1)) sample_store eq_refl eq_refl)
    as (st' & Hrun & Hgone & Hlinks & _).
  by exists st'.
Defined.

Lemma room_list_after_create_witness :
  ∃ response st' room listed,
    as_view POST (Rooms_post sample_errors) repeated_amenity_request tt
            sample_store
    = (inr response, st')
    ∧ (∀ reader,
         as_view GET Rooms_get reader tt st'
         = (inr (mkResponse HTTP_200_OK (RoomListBody listed)), st'))
    ∧ listed ≡ₚ (2, room) :: map_to_list (rooms sample_store)
    ∧ room_owner room = 7.
Proof.
  apply (room_list_after_create sample_errors repeated_amenity_request
           sample_store 7 1 (mkCategory "rooms" CategoryKindChoices.ROOM)
           [2; 3; 2]);
    try reflexivity.
  - lia.
  - repeat (constructor; [by eexists |]). constructor.
Defined.

Lemma upcoming_bookings_shrink_with_date_witness :
  ∃ listed listed_later,
    as_view GET (RoomBookings_get 5) (request_of None no_data) 1 sample_store
    = (inr (mkResponse HTTP_200_OK (BookingListBody listed)), sample_store)
    ∧ as_view GET (RoomBookings_get 15) (request_of None no_data) 1
              sample_store
      = (inr (mkResponse HTTP_200_OK (BookingListBody listed_later)),
         sample_store)
    ∧ listed_later `sublist_of` listed.
Proof.
  apply (upcoming_bookings_shrink_with_date 5 15 (request_of None no_data) 1
           (mkRoom "loft" 100 7 (Some 1)) sample_store).
  - reflexivity.
  - lia.
Defined.

Lemma booking_post_then_listed_witness :
  ∃ st',
    as_view_reply POST
      (RoomBookings_post (Z * Z) sample_booking_validate 3 (30, 32))
      (request_of (Some 9) no_data) 1 sample_store
    = (inr (mkReply HTTP_200_OK
              (BookingPayload 3
                 (mkBooking (Some 1) 9 BookingKindChoices.ROOM 30 32))),
       st')
    ∧ bookings st'
      = (bookings sample_store
         ++ [(3, mkBooking (Some 1) 9 BookingKindChoices.ROOM 30 32)])%list.
Proof.
  destruct (booking_post_then_listed sample_booking_validate 3 (30, 32)
              (request_of (Some 9) no_data) 1 (mkRoom "loft" 100 7 (Some 1))
              sample_store 9 30 32 eq_refl eq_refl eq_refl)
    as (st' & Hrun & -> & _).
  eexists. split; [exact Hrun | reflexivity].
Defined.

Lemma booking_post_refused_witness :
  as_view_reply POST
    (RoomBookings_post (Z * Z) sample_booking_validate 3 (32, 30))
    (request_of (Some 9) no_data) 5 sample_store
  = (inl NotFound, sample_store)
  ∧ as_view_reply POST
      (RoomBookings_post (Z * Z) sample_booking_validate 3 (32, 30))
      (request_of (Some 9) no_data) 1 sample_store
    = (inr (mkReply HTTP_200_OK (ErrorsPayload ["check_out"])), sample_store).
Proof.
  split.
  - destruct (booking_post_refused sample_booking_validate 3 (32, 30)
                (request_of (Some 9) no_data) 5 sample_store eq_refl)
      as [Hmissing _].
    by apply Hmissing.
  - destruct (booking_post_refused sample_booking_validate 3 (32, 30)
                (request_of (Some 9) no_data) 1 sample_store eq_refl)
      as [_ Hinvalid].
    by apply (Hinvalid (mkRoom "loft" 100 7 (Some 1))).
Defined.

Lemma amenity_detail_missing_witness :
  AmenityDetail_get (request_of None no_data) 9 sample_store
  = (inl NotFound, sample_store)
  ∧ AmenityDetail_put _ sample_amenity_validate_partial (Some "Wifi", None)
      (request_of None no_data) 9 sample_store
    = (inl NotFound, sample_store)
  ∧ AmenityDetail_delete (request_of None no_data) 9 sample_store
    = (inl NotFound, sample_store).
Proof.
  by apply (amenity_detail_missing sample_amenity_validate_partial).
Defined.

Lemma amenity_put_then_get_witness :
  ∃ st',
    AmenityDetail_put _ sample_amenity_validate_partial (None, Some "fast")
      (request_of None no_data) 1 sample_store
    = (inr (mkReply HTTP_200_OK (AmenityPayload 1 (mkAmenity "A" "fast"))),
       st')
    ∧ ∀ reader,
        AmenityDetail_get reader 1 st'
        = (inr (mkReply HTTP_200_OK (AmenityPayload 1 (mkAmenity "A" "fast"))),
           st').
Proof.
  destruct (amenity_put_then_get sample_amenity_validate_partial
              (None, Some "fast") (request_of None no_data) 1
              (mkAmenity "A" "") sample_store None (Some "fast")
              eq_refl eq_refl)
    as (st' & Hrun & _ & _ & Hget).
  by exists st'.
Defined.


Lemma amenity_delete_unlinks_everywhere_witness :
  ∃ st',
    AmenityDetail_delete (request_of None no_data) 2 sample_store
    = (inr (mkReply HTTP_204_NO_CONTENT NoPayload), st')
    ∧ amenities st' !! 2 = None
    ∧ amenities_all 1 st' = [1].
Proof.
  destruct (amenity_delete_unlinks_everywhere (request_of None no_data) 2
              (mkAmenity "B" "") sample_store eq_refl)
    as (st' & Hrun & Hgone & _ & _ & Hlinks & _).
  exists st'. split; [done |]. split; [done |]. by rewrite Hlinks.
Defined.

Lemma amenity_post_then_get_witness :
  ∃ st' listed,
    Amenities_post _ sample_amenity_validate 4 (Some "Wifi", None)
      (request_of None no_data) sample_store
    = (inr (mkReply HTTP_200_OK (AmenityPayload 4 (mkAmenity "Wifi" ""))), st')
    ∧ (∀ reader,
         AmenityDetail_get reader 4 st'
         = (inr (mkReply HTTP_200_OK (AmenityPayload 4 (mkAmenity "Wifi" ""))),
            st'))
    ∧ (∀ reader,
         Amenities_get reader st'
         = (inr (mkReply HTTP_200_OK (AmenityListPayload listed)), st'))
    ∧ listed ≡ₚ (4, mkAmenity "Wifi" "") :: map_to_list (amenities sample_store).
Proof.
  destruct (amenity_post_then_get sample_amenity_validate 4
              (Some "Wifi", None) (request_of None no_data)
              (mkAmenity "Wifi" "") sample_store eq_refl eq_refl)
    as (st' & listed & Hrun & _ & Hget & Hlist & Hperm).
  by exists st', listed.
Defined.

Lemma reviews_page_witness :
  ∃ page_reviews,
    as_view_site GET (RoomReviews_get decimal_int) (page_request "2") 1
                 sample_site
    = (inr (mkReply HTTP_200_OK (ReviewListPayload page_reviews)), sample_site)
    ∧ page_reviews = [(5, mkReview 9 1 "four")].
Proof.
  destruct (reviews_page decimal_int (page_request "2") 1
              (mkRoom "loft" 100 7 (Some 1)) sample_site eq_refl)
    as (page_reviews & Hrun & -> & _).
  - by vm_compute.
  - eexists. split; [exact Hrun | reflexivity].
Defined.

Lemma reviews_pages_partition_witness :
  concat
    ((λ i : nat,
        listed_reviews
          (as_view_site GET (RoomReviews_get decimal_int)
             (mkRequest None no_data
                {[ "page" := (if Z.of_nat i + 1 =? 1 then "1" else "2") ]})
             1 sample_site).1)
     <$> seq 0 2)
  = room_reviews 1 sample_site.
Proof.
  rewrite (reviews_pages_partition decimal_int
             (λ page, if page =? 1 then "1" else "2") 1
             (mkRoom "loft" 100 7 (Some 1)) sample_site 2).
  - reflexivity.
  - intros page Hpage.
    assert (page = 1 ∨ page = 2) as [-> | ->] by lia; reflexivity.
  - reflexivity.
Defined.

Lemma reviews_page_refused_witness :
  as_view_site GET (RoomReviews_get decimal_int) (page_request "0") 5
               sample_site
  = (inl NotFound, sample_site)
  ∧ ∃ e,
      as_view_site GET (RoomReviews_get decimal_int) (page_request "0") 1
                   sample_site
      = (inl e, sample_site)
      ∧ http_status (inl e) = 500.
Proof.
  destruct (reviews_page_refused decimal_int (page_request "0") 5 sample_site)
    as [Hmissing _].
  destruct (reviews_page_refused decimal_int (page_request "0") 1 sample_site)
    as [_ Hnegative].
  split; [by apply Hmissing |].
  apply (Hnegative (mkRoom "loft" 100 7 (Some 1))); [reflexivity |].
  by vm_compute.
Defined.

Lemma review_post_cases_witness :
  as_view_site POST (RoomReviews_post string sample_text_validate 6 "")
               (request_of (Some 9) no_data) 1 sample_site
  = (inr None, sample_site)
  ∧ as_view_site POST (RoomReviews_post string sample_text_validate 6 "fine")
                 (request_of (Some 9) no_data) 5 sample_site
    = (inl NotFound, sample_site)
  ∧ room_reviews 1
      (as_view_site POST
         (RoomReviews_post string sample_text_validate 6 "fine")
         (request_of (Some 9) no_data) 1 sample_site).2
    = (room_reviews 1 sample_site ++ [(6, mkReview 9 1 "fine")])%list.
Proof.
  split; [| split].
  - destruct (review_post_cases sample_text_validate 6 ""
                (request_of (Some 9) no_data) 1 sample_site 9 eq_refl)
      as (Hinvalid & _).
    by apply (Hinvalid ["payload"]).
  - destruct (review_post_cases sample_text_validate 6 "fine"
                (request_of (Some 9) no_data) 5 sample_site 9 eq_refl)
      as (_ & Hmissing & _).
    by apply (Hmissing "fine").
  - destruct (review_post_cases sample_text_validate 6 "fine"
                (request_of (Some 9) no_data) 1 sample_site 9 eq_refl)
      as (_ & _ & Hsaved).
    destruct (Hsaved "fine" (mkRoom "loft" 100 7 (Some 1)) eq_refl eq_refl)
      as [-> Hlast].
    exact Hlast.
Defined.

Lemma photo_post_cases_witness :
  as_view_site POST (RoomPhotos_post string sample_text_validate 1 "a.jpg")
               (request_of (Some 8) no_data) 1 sample_site
  = (inl PermissionDenied, sample_site)
  ∧ as_view_site POST (RoomPhotos_post string sample_text_validate 1 "a.jpg")
                 (request_of (Some 7) no_data) 1 sample_site
    = (inr (mkReply HTTP_200_OK (PhotoPayload 1 (mkPhoto 1 "a.jpg"))),
       mkSite sample_store (reviews sample_site) [(1, mkPhoto 1 "a.jpg")]).
Proof.
  split.
  - destruct (photo_post_cases sample_text_validate 1 "a.jpg"
                (request_of (Some 8) no_data) 1 sample_site eq_refl)
      as (_ & Hstranger & _).
    apply (Hstranger (mkRoom "loft" 100 7 (Some 1))); [reflexivity |].
    simpl. congruence.
  - destruct (photo_post_cases sample_text_validate 1 "a.jpg"
                (request_of (Some 7) no_data) 1 sample_site eq_refl)
      as (_ & _ & _ & Howner & _).
    by apply (Howner (mkRoom "loft" 100 7 (Some 1)) "a.jpg").
Defined.
